(** * Agent Chain Optimizer Middleware: the Express adapter of [src/index.ts]

    A shallow embedding of the adapter: the JavaScript values it inspects,
    the external [agent-chain-optimizer] library as an interface, the
    world the adapter acts on (the optimizers constructed so far, the
    library's own state, the log of library calls), and the exported
    functions, each translated from its source text. *)

From Stdlib Require Import ZArith Ascii String.
From stdpp Require Import base option list gmap strings fin_maps.

Local Open Scope string_scope.

(** ** JavaScript values and operators used by the adapter *)

Module Js.

(** The values a request can carry in a body field or a path parameter.
    Numbers are kept to the integers and NaN, objects to an opaque
    reference: the adapter only tests such values for truthiness, compares
    them with [===] and hands them on. *)
Inductive Value : Type :=
| Undefined
| Null
| Bool (b : bool)
| Num (n : Z)
| NaN
| Str (s : string)
| Obj (ref : N).

(** ECMAScript [ToBoolean]: what [!v] and [a || b] look at. *)
Definition ToBoolean (v : Value) : bool :=
  match v with
  | Undefined | Null | NaN => false
  | Bool b => b
  | Num n => negb (n =? 0)%Z
  | Str s => negb (String.eqb s "")
  | Obj _ => true
  end.

(** [a === b]. *)
Definition strict_eq (a b : Value) : bool :=
  match a, b with
  | Undefined, Undefined | Null, Null => true
  | Bool x, Bool y => Bool.eqb x y
  | Num x, Num y => (x =? y)%Z
  | Str x, Str y => String.eqb x y
  | Obj x, Obj y => (x =? y)%N
  | _, _ => false
  end.

(** [o.k] on an object given by its own properties. *)
Definition property (o : gmap string Value) (k : string) : Value :=
  default Undefined (o !! k).

(** [a ?? d] where [a] is an optional field. *)
Definition nullish {A} (a : option A) (d : A) : A := default d a.

(** [a || d] where [a] is a string or undefined. *)
Definition or_else (a : option string) (d : string) : string :=
  match a with
  | Some s => if String.eqb s "" then d else s
  | None => d
  end.

Fixpoint drop (n : nat) (s : string) : string :=
  match n, s with
  | O, _ => s
  | S _, EmptyString => EmptyString
  | S n', String _ s' => drop n' s'
  end.

(** [s.startsWith(pat)]. *)
Fixpoint startsWith (pat s : string) : bool :=
  match pat, s with
  | EmptyString, _ => true
  | String _ _, EmptyString => false
  | String a pat', String b s' => Ascii.eqb a b && startsWith pat' s'
  end.

(** [s.replace(pat, rep)] for a string pattern and a replacement without
    [$] patterns: the first occurrence of [pat] in [s], scanning from the
    left, is replaced; [s] is returned as it is when there is none. *)
Fixpoint replace (pat rep s : string) : string :=
  if startsWith pat s then rep +:+ drop (String.length pat) s
  else match s with
       | EmptyString => EmptyString
       | String c s' => String c (replace pat rep s')
       end.

(** [s.includes(pat)]. *)
Fixpoint includes (pat s : string) : bool :=
  if startsWith pat s then true
  else match s with
       | EmptyString => false
       | String _ s' => includes pat s'
       end.

(** [arr.find(p)]. *)
Fixpoint find {A} (p : A → bool) (arr : list A) : option A :=
  match arr with
  | [] => None
  | x :: rest => if p x then Some x else find p rest
  end.

End Js.

(** ** The external optimizer library *)

(** An Optimizer Handle is a reference into the store of optimizers
    constructed so far. *)
Definition Handle := nat.

(** The argument of the library's [createOptimizer]. *)
Record OptimizerOptions := { optAutoOptimize : bool }.

Inductive Exception : Type :=
| TypeError
| LibraryError (what : string).

(** A call either returns or throws; the adapter has no [try]. *)
Inductive Outcome (A : Type) : Type :=
| Returned (a : A)
| Thrown (e : Exception).
Arguments Returned {A} a.
Arguments Thrown {A} e.

(** The operations of [agent-chain-optimizer] the adapter consumes. The
    library is not part of this repository: its result types are opaque and
    each method is a function of the library's state that returns or throws
    and yields the next state. *)
Class OptimizerLibrary : Type := {
  LibState : Type;
  PerformanceAnalysis : Type;
  OptimizationResult : Type;
  AggregatedMetrics : Type;
  CriticalPath : Type;
  TelemetryCollector : Type;
  WorkflowExecution : Type;
  id : WorkflowExecution → string;
  analyzeWorkflow_impl :
    Handle → Js.Value → LibState → Outcome PerformanceAnalysis * LibState;
  optimizeWorkflow_impl :
    Handle → Js.Value → LibState → Outcome OptimizationResult * LibState;
  getTelemetryCollector_impl :
    Handle → LibState → Outcome TelemetryCollector * LibState;
  getAggregatedMetrics_impl :
    TelemetryCollector → LibState → Outcome AggregatedMetrics * LibState;
  getWorkflowExecutions_impl :
    TelemetryCollector → LibState → Outcome (list WorkflowExecution) * LibState;
  analyzeExecutionCriticalPath_impl :
    Handle → WorkflowExecution → LibState → Outcome CriticalPath * LibState;
}.

Section Adapter.

Context {L : OptimizerLibrary}.

(** A call into the library, as the log records it. *)
Inductive Call : Type :=
| CreateOptimizer (options : OptimizerOptions)
| AnalyzeWorkflow (optimizer : Handle) (workflowId : Js.Value)
| OptimizeWorkflow (optimizer : Handle) (workflow : Js.Value)
| GetTelemetryCollector (optimizer : Handle)
| GetAggregatedMetrics (collector : TelemetryCollector)
| GetWorkflowExecutions (collector : TelemetryCollector)
| AnalyzeExecutionCriticalPath (optimizer : Handle) (execution : WorkflowExecution).

(** The world: the options each optimizer was constructed with (handle
    [h] is position [h]), the library's state, and the calls made so far,
    oldest first. *)
Record World : Type := mkWorld {
  optimizers : list OptimizerOptions;
  libState : LibState;
  calls : list Call;
}.

(** Computations: state passing over the world, with exceptions. *)
Definition M (A : Type) : Type := World → Outcome A * World.

#[export] Instance M_ret : MRet M := λ A a w, (Returned a, w).

#[export] Instance M_bind : MBind M := λ A B k m w,
  match m w with
  | (Returned a, w') => k a w'
  | (Thrown e, w') => (Thrown e, w')
  end.

Definition throw {A} (e : Exception) : M A := λ w, (Thrown e, w).

(** A method call: logged, then run on the library's state. *)
Definition invoke {A} (c : Call) (f : LibState → Outcome A * LibState) : M A :=
  λ w, let '(r, s) := f (libState w) in
       (r, mkWorld (optimizers w) s (calls w ++ [c])).

(** Modelled from the spec: [createOptimizer], the constructor of the
    external library (section 6, "constructor createOptimizer({autoOptimize:
    boolean}) -> OptimizerHandle"). Each call constructs a new optimizer:
    the handle returned is the next free position of the store, which then
    holds the options given. *)
Definition createOptimizer (options : OptimizerOptions) : M Handle :=
  λ w, (Returned (length (optimizers w)),
        mkWorld (optimizers w ++ [options]) (libState w)
                (calls w ++ [CreateOptimizer options])).

Definition analyzeWorkflow (optimizer : Handle) (workflowId : Js.Value) :=
  invoke (AnalyzeWorkflow optimizer workflowId)
         (analyzeWorkflow_impl optimizer workflowId).

Definition optimizeWorkflow (optimizer : Handle) (workflow : Js.Value) :=
  invoke (OptimizeWorkflow optimizer workflow)
         (optimizeWorkflow_impl optimizer workflow).

Definition getTelemetryCollector (optimizer : Handle) :=
  invoke (GetTelemetryCollector optimizer) (getTelemetryCollector_impl optimizer).

Definition getAggregatedMetrics (collector : TelemetryCollector) :=
  invoke (GetAggregatedMetrics collector) (getAggregatedMetrics_impl collector).

Definition getWorkflowExecutions (collector : TelemetryCollector) :=
  invoke (GetWorkflowExecutions collector) (getWorkflowExecutions_impl collector).

Definition analyzeExecutionCriticalPath (optimizer : Handle) (execution : WorkflowExecution) :=
  invoke (AnalyzeExecutionCriticalPath optimizer execution)
         (analyzeExecutionCriticalPath_impl optimizer execution).

(** ** Requests and responses *)

(** [interface MiddlewareConfig]. *)
Record Paths : Type := mkPaths {
  analyze : option string;
  optimize : option string;
  metrics : option string;
  criticalPathOverride : option string;
}.

Record MiddlewareConfig : Type := mkConfig {
  autoOptimize : option bool;
  paths : option Paths;
}.

(** [{}], the default of the [config] parameters. *)
Definition emptyConfig : MiddlewareConfig := mkConfig None None.

(** [interface WorkflowRequest]: the parts of an Express request the
    adapter reads or writes. [body] is [None] when the request has no
    parsed body ([req.body] undefined); [params] is always an object. *)
Record WorkflowRequest : Type := mkRequest {
  body : option (gmap string Js.Value);
  params : gmap string Js.Value;
  workflowOptimizer : option Handle;
  workflowAnalysis : option PerformanceAnalysis;
  criticalPath : option CriticalPath;
}.

(** What [res.json] is given. *)
Inductive Json : Type :=
| ErrorJson (error : string)
| AnalysisJson (analysis : PerformanceAnalysis)
| OptimizationJson (result : OptimizationResult)
| MetricsJson (metrics : AggregatedMetrics)
| CriticalPathJson (path : CriticalPath).

Record Response : Type := mkResponse {
  statusCode : Z;
  sent : option Json;
}.

(** The response Express hands to a handler: status 200, nothing sent. *)
Definition freshResponse : Response := mkResponse 200 None.

(** [res.status(code)] and [res.json(payload)]. *)
Definition status (code : Z) (res : Response) : Response :=
  mkResponse code (sent res).

Definition json (payload : Json) (res : Response) : Response :=
  mkResponse (statusCode res) (Some payload).

(** [const { k } = o]: a [TypeError] when [o] is undefined. *)
Definition destructure (o : option (gmap string Js.Value)) (k : string) : M Js.Value :=
  match o with
  | Some fields => mret (Js.property fields k)
  | None => throw TypeError
  end.

(** [next] resumes the pipeline on the request and response as they are
    when it is called; a [RequestHandler] yields them as it leaves them. *)
Definition NextFunction : Type := WorkflowRequest → Response → M (WorkflowRequest * Response).
Definition RequestHandler : Type :=
  WorkflowRequest → Response → NextFunction → M (WorkflowRequest * Response).

(** ** The exported functions *)

Definition createOptimizerMiddleware (config : option MiddlewareConfig) : M RequestHandler :=
  let config := default emptyConfig config in
  optimizer ← createOptimizer {| optAutoOptimize := Js.nullish (autoOptimize config) false |};
  mret (λ req res next,
    let req := mkRequest (body req) (params req) (Some optimizer)
                         (workflowAnalysis req) (criticalPath req) in
    next req res).

Definition createAnalyzeHandler (optimizer : Handle) : RequestHandler :=
  λ req res _,
    workflowId ← destructure (body req) "workflowId";
    if negb (Js.ToBoolean workflowId) then
      mret (req, json (ErrorJson "workflowId is required") (status 400 res))
    else
      analysis ← analyzeWorkflow optimizer workflowId;
      let req := mkRequest (body req) (params req) (workflowOptimizer req)
                           (Some analysis) (criticalPath req) in
      mret (req, json (AnalysisJson analysis) res).

Definition createOptimizeHandler (optimizer : Handle) : RequestHandler :=
  λ req res _,
    workflow ← destructure (body req) "workflow";
    if negb (Js.ToBoolean workflow) then
      mret (req, json (ErrorJson "workflow is required") (status 400 res))
    else
      result ← optimizeWorkflow optimizer workflow;
      mret (req, json (OptimizationJson result) res).

Definition createMetricsHandler (optimizer : Handle) : RequestHandler :=
  λ req res _,
    collector ← getTelemetryCollector optimizer;
    metrics ← getAggregatedMetrics collector;
    mret (req, json (MetricsJson metrics) res).

Definition createCriticalPathHandler (optimizer : Handle) : RequestHandler :=
  λ req res _,
    let executionId := Js.property (params req) "executionId" in
    if negb (Js.ToBoolean executionId) then
      mret (req, json (ErrorJson "executionId is required") (status 400 res))
    else
      collector ← getTelemetryCollector optimizer;
      executions ← getWorkflowExecutions collector;
      let execution :=
        Js.find (λ e, Js.strict_eq (Js.Str (id e)) executionId) executions in
      match execution with
      | None =>
          mret (req, json (ErrorJson "Execution not found") (status 404 res))
      | Some execution =>
          criticalPath ← analyzeExecutionCriticalPath optimizer execution;
          mret (req, json (CriticalPathJson criticalPath) res)
      end.

(** An entry of the route table. *)
Record Route : Type := mkRoute {
  method : string;
  handler : RequestHandler;
}.

(** The object literal of [setupOptimizerRoutes]: its four computed keys
    are set in source order, a later key replacing an equal earlier one. *)
Definition setupOptimizerRoutes (optimizer : Handle) (basePath : option string)
  : M (gmap string Route) :=
  let basePath := default "/api/optimizer" basePath in
  mret (<[basePath +:+ "/critical-path/:executionId" :=
            mkRoute "get" (createCriticalPathHandler optimizer)]>
       (<[basePath +:+ "/metrics" :=
            mkRoute "get" (createMetricsHandler optimizer)]>
       (<[basePath +:+ "/optimize" :=
            mkRoute "post" (createOptimizeHandler optimizer)]>
       (<[basePath +:+ "/analyze" :=
            mkRoute "post" (createAnalyzeHandler optimizer)]> ∅)))).

(** The bundle [createOptimizerApp] returns. *)
Record OptimizerApp : Type := mkApp {
  optimizer : Handle;
  middleware : RequestHandler;
  routes : gmap string Route;
}.

(** [config.paths?.analyze?.replace('/analyze', '')]. *)
Definition strippedAnalyzePath (config : MiddlewareConfig) : option string :=
  p ← paths config;
  a ← analyze p;
  Some (Js.replace "/analyze" "" a).

Definition createOptimizerApp (config : option MiddlewareConfig) : M OptimizerApp :=
  let cfg := default emptyConfig config in
  optimizer ← createOptimizer {| optAutoOptimize := Js.nullish (autoOptimize cfg) true |};
  middleware ← createOptimizerMiddleware (Some cfg);
  routes ← setupOptimizerRoutes optimizer
             (Some (Js.or_else (strippedAnalyzePath cfg) "/api/optimizer"));
  mret (mkApp optimizer middleware routes).

End Adapter.

(** ** A small library instance, to run the adapter on concrete requests *)

Module Demo.

(** Executions are an identifier with the names of their steps; the
    library's state is the list of executions recorded. Analysing a
    workflow echoes the identifier with the number of executions, and the
    critical path of an execution is its steps. *)
Definition library : OptimizerLibrary := {|
  LibState := list (string * list string);
  PerformanceAnalysis := Js.Value * nat;
  OptimizationResult := Js.Value;
  AggregatedMetrics := nat;
  CriticalPath := list string;
  TelemetryCollector := Handle;
  WorkflowExecution := string * list string;
  id := fst;
  analyzeWorkflow_impl := λ _ workflowId s, (Returned (workflowId, length s), s);
  optimizeWorkflow_impl := λ _ workflow s, (Returned workflow, s);
  getTelemetryCollector_impl := λ h s, (Returned h, s);
  getAggregatedMetrics_impl := λ _ s, (Returned (length s), s);
  getWorkflowExecutions_impl := λ _ s, (Returned s, s);
  analyzeExecutionCriticalPath_impl := λ _ e s, (Returned (snd e), s);
|}.

#[local] Existing Instance library.

Definition world : World :=
  mkWorld [] [("exec-1", ["fetch"; "rank"]); ("exec-2", ["plan"])] [].

(** A world in which one recorded execution has the empty identifier. *)
Definition worldWithUnnamed : World :=
  mkWorld [] [("exec-1", ["fetch"; "rank"]); ("", ["plan"])] [].

Definition next : NextFunction := λ req res, mret (req, res).

(** A configuration that gives the analyze path only. *)
Definition withAnalyzePath (path : string) : option MiddlewareConfig :=
  Some (mkConfig None (Some (mkPaths (Some path) None None None))).

(** A request with the given body and path parameters, nothing attached. *)
Definition request (body : option (gmap string Js.Value)) (params : gmap string Js.Value)
  : WorkflowRequest :=
  mkRequest body params None None None.

End Demo.

(** ** The specification's side

    The statements of the specification that fail on the code, each the way
    the specification words it, to be refuted at a concrete request or
    configuration further down; and the notions the theorems on the app
    factory are stated with. *)

Section Stated.

Context {L : OptimizerLibrary}.

(** "For every request to the analyze handler whose body contains a
    present workflowId, the handler invokes analyzeWorkflow with exactly
    that identifier, stores the result on the request and responds 200
    with it." *)
Definition present_id_is_analysed : Prop :=
  ∀ optimizer req fields workflowId next w a s,
    body req = Some fields →
    fields !! "workflowId" = Some workflowId →
    analyzeWorkflow_impl optimizer workflowId (libState w) = (Returned a, s) →
    createAnalyzeHandler optimizer req freshResponse next w
    = (Returned (mkRequest (body req) (params req) (workflowOptimizer req)
                           (Some a) (criticalPath req),
                 mkResponse 200 (Some (AnalysisJson a))),
       mkWorld (optimizers w) s (calls w ++ [AnalyzeWorkflow optimizer workflowId])).

(** "For every request to the critical-path handler with a present
    executionId, if no execution record has an id equal to it, the
    response is 404 and analyzeExecutionCriticalPath is not invoked." *)
Definition present_id_unmatched_is_404 : Prop :=
  ∀ optimizer req executionId next w collector s1 executions s2,
    params req !! "executionId" = Some executionId →
    getTelemetryCollector_impl optimizer (libState w) = (Returned collector, s1) →
    getWorkflowExecutions_impl collector s1 = (Returned executions, s2) →
    (∀ e, e ∈ executions → Js.Str (id e) ≠ executionId) →
    createCriticalPathHandler optimizer req freshResponse next w
    = (Returned (req, mkResponse 404 (Some (ErrorJson "Execution not found"))),
       mkWorld (optimizers w) s2
               (calls w ++ [GetTelemetryCollector optimizer;
                            GetWorkflowExecutions collector])).

(** "For every request to the critical-path handler with a present
    executionId such that exactly one execution record has an id equal to
    it, the handler invokes analyzeExecutionCriticalPath with that record
    and responds 200 with its result." *)
Definition present_id_matched_is_200 : Prop :=
  ∀ optimizer req executionId next w collector s1 executions s2 i execution path s3,
    params req !! "executionId" = Some executionId →
    getTelemetryCollector_impl optimizer (libState w) = (Returned collector, s1) →
    getWorkflowExecutions_impl collector s1 = (Returned executions, s2) →
    executions !! i = Some execution →
    Js.Str (id execution) = executionId →
    (∀ j e, executions !! j = Some e → Js.Str (id e) = executionId → j = i) →
    analyzeExecutionCriticalPath_impl optimizer execution s2 = (Returned path, s3) →
    createCriticalPathHandler optimizer req freshResponse next w
    = (Returned (req, mkResponse 200 (Some (CriticalPathJson path))),
       mkWorld (optimizers w) s3
               (calls w ++ [GetTelemetryCollector optimizer;
                            GetWorkflowExecutions collector;
                            AnalyzeExecutionCriticalPath optimizer execution])).

(** A handler that attaches optimizer [h] to the request it is given and
    passes control on, whatever the request. *)
Definition attaches (mw : RequestHandler) (h : Handle) : Prop :=
  ∀ req res next w,
    mw req res next w
    = next (mkRequest (body req) (params req) (Some h)
                      (workflowAnalysis req) (criticalPath req)) res w.

(** [config.paths?.analyze], the analyze-path override. *)
Definition analyzeOverride (config : option MiddlewareConfig) : option string :=
  paths (default emptyConfig config) ≫= analyze.

(** The specification's words for the base path: the override with "a
    trailing /analyze suffix" stripped "if present". *)
Fixpoint stripSuffix (suffix s : string) : string :=
  if String.eqb s suffix then EmptyString
  else match s with
       | EmptyString => EmptyString
       | String c s' => String c (stripSuffix suffix s')
       end.

Definition statedBasePath (config : option MiddlewareConfig) : string :=
  match analyzeOverride config with
  | Some a => stripSuffix "/analyze" a
  | None => "/api/optimizer"
  end.

(** The same with the fallback the code has: the default also when
    nothing is left of the override. *)
Definition amendedBasePath (config : option MiddlewareConfig) : string :=
  match analyzeOverride config with
  | Some a =>
      if String.eqb (stripSuffix "/analyze" a) "" then "/api/optimizer"
      else stripSuffix "/analyze" a
  | None => "/api/optimizer"
  end.

(** "For every configuration passed to the app factory, the base path of
    the returned route table is derived from the optional analyze-path
    override by stripping a trailing /analyze suffix if present, and is the
    default /api/optimizer when no override is given." *)
Definition base_is_stripped_override (config : option MiddlewareConfig) : Prop :=
  ∀ w, ∃ app w',
    createOptimizerApp config w = (Returned app, w')
    ∧ setupOptimizerRoutes (optimizer app) (Some (statedBasePath config)) w'
      = (Returned (routes app), w').

(** "The auto-optimize flag defaults to false when the middleware is
    created standalone, and to true for every Optimizer Handle constructed
    by the full app factory, including the handle used by the middleware
    the factory returns." The optimizers a call constructs are the
    positions it adds to the store. *)
Definition factory_handles_default_true : Prop :=
  ∀ config w,
    autoOptimize (default emptyConfig config) = None →
    (∃ mw w',
        createOptimizerMiddleware config w = (Returned mw, w')
        ∧ ∀ h o, (length (optimizers w) ≤ h)%nat → optimizers w' !! h = Some o →
                 optAutoOptimize o = false)
    ∧ (∃ app w',
        createOptimizerApp config w = (Returned app, w')
        ∧ ∀ h o, (length (optimizers w) ≤ h)%nat → optimizers w' !! h = Some o →
                 optAutoOptimize o = true).

End Stated.

(** ** Notions for the handlers' invariants *)

Section Notions.

Context {L : OptimizerLibrary}.

(** A call a handler built over [optimizer] may make: never a constructor
    call, and a method call on an optimizer only on that one. The
    collector's methods are called on whatever collector it handed out. *)
Definition onOptimizer (optimizer : Handle) (c : Call) : Prop :=
  match c with
  | CreateOptimizer _ => False
  | AnalyzeWorkflow h _ | OptimizeWorkflow h _
  | GetTelemetryCollector h | AnalyzeExecutionCriticalPath h _ => h = optimizer
  | GetAggregatedMetrics _ | GetWorkflowExecutions _ => True
  end.

(** The payloads of the shape [{error: message}]. *)
Definition isError (payload : Json) : bool :=
  match payload with
  | ErrorJson _ => true
  | _ => false
  end.



(** [req.workflowOptimizer = h] and [req.workflowAnalysis = a]. *)
Definition withOptimizer (h : Handle) (req : WorkflowRequest) : WorkflowRequest :=
  mkRequest (body req) (params req) (Some h) (workflowAnalysis req) (criticalPath req).

Definition withAnalysis (a : PerformanceAnalysis) (req : WorkflowRequest) : WorkflowRequest :=
  mkRequest (body req) (params req) (workflowOptimizer req) (Some a) (criticalPath req).

End Notions.

(** ** A library instance that rejects what it cannot process *)

Module Strict.

(** As the demo library, but each method throws on input it has no answer
    for: an identifier that is not a string, a workflow that is not an
    object, an optimizer other than the first, a collector with nothing
    recorded, an execution without steps. Analysing a workflow records an
    execution of it. *)
Definition library : OptimizerLibrary := {|
  LibState := list (string * list string);
  PerformanceAnalysis := Js.Value * nat;
  OptimizationResult := Js.Value;
  AggregatedMetrics := nat;
  CriticalPath := list string;
  TelemetryCollector := Handle;
  WorkflowExecution := string * list string;
  id := fst;
  analyzeWorkflow_impl := λ _ workflowId s,
    match workflowId with
    | Js.Str name => (Returned (workflowId, length s), (s ++ [(name, ["analyze"])])%list)
    | _ => (Thrown (LibraryError "workflowId must be a string"), s)
    end;
  optimizeWorkflow_impl := λ _ workflow s,
    match workflow with
    | Js.Obj _ => (Returned workflow, s)
    | _ => (Thrown (LibraryError "workflow must be an object"), s)
    end;
  getTelemetryCollector_impl := λ h s,
    match h with
    | O => (Returned h, s)
    | S _ => (Thrown (LibraryError "optimizer has no collector"), s)
    end;
  getAggregatedMetrics_impl := λ _ s,
    match s with
    | [] => (Thrown (LibraryError "nothing recorded"), s)
    | _ :: _ => (Returned (length s), s)
    end;
  getWorkflowExecutions_impl := λ _ s,
    match s with
    | [] => (Thrown (LibraryError "nothing recorded"), s)
    | _ :: _ => (Returned s, s)
    end;
  analyzeExecutionCriticalPath_impl := λ _ e s,
    match snd e with
    | [] => (Thrown (LibraryError "execution has no steps"), s)
    | steps => (Returned steps, s)
    end;
|}.

#[local] Existing Instance library.

(** Two executions share the identifier ["run"]; ["idle"] has no steps. *)
Definition world : World :=
  mkWorld [] [("boot", ["load"]); ("run", ["fetch"; "rank"]); ("idle", []);
              ("run", ["retry"])] [].

Definition emptyWorld : World := mkWorld [] [] [].

Definition next : NextFunction := λ req res, mret (req, res).

Definition request (body : option (gmap string Js.Value)) (params : gmap string Js.Value)
  : WorkflowRequest :=
  mkRequest body params None None None.

End Strict.

(** ** Running computations *)

Section Handlers.

Context {L : OptimizerLibrary}.

(** The four values the request examples use are falsy. *)
Lemma listed_values_falsy (v : Js.Value) :
  v ∈ [Js.Str ""; Js.Num 0; Js.Bool false; Js.Null] → Js.ToBoolean v = false.
Proof.
  rewrite !elem_of_cons, elem_of_nil.
  intros [-> | [-> | [-> | [-> | []]]]]; reflexivity.
Qed.

(** A field that is not an own property reads as [undefined]. *)
Lemma property_absent (o : gmap string Js.Value) k :
  o !! k = None → Js.property o k = Js.Undefined.
Proof. unfold Js.property. by intros ->. Qed.

Lemma property_present (o : gmap string Js.Value) k v :
  o !! k = Some v → Js.property o k = v.
Proof. unfold Js.property. by intros ->. Qed.

(** The analyze handler on a falsy identifier: the 400 branch, and the
    world is left as it was. *)
Lemma analyze_on_falsy optimizer req fields next w :
  body req = Some fields →
  Js.ToBoolean (Js.property fields "workflowId") = false →
  createAnalyzeHandler optimizer req freshResponse next w
  = (Returned (req, mkResponse 400 (Some (ErrorJson "workflowId is required"))), w).
Proof.
  intros Hbody Hfalsy. unfold createAnalyzeHandler, mbind, M_bind, destructure.
  rewrite Hbody. cbn. by rewrite Hfalsy.
Qed.

(** The analyze handler on a truthy identifier, as far as the library
    call: whatever the call yields is what the handler continues with. *)
Lemma analyze_on_truthy optimizer req fields next w a s :
  body req = Some fields →
  Js.ToBoolean (Js.property fields "workflowId") = true →
  analyzeWorkflow_impl optimizer (Js.property fields "workflowId") (libState w)
  = (Returned a, s) →
  createAnalyzeHandler optimizer req freshResponse next w
  = (Returned (mkRequest (body req) (params req) (workflowOptimizer req)
                         (Some a) (criticalPath req),
               mkResponse 200 (Some (AnalysisJson a))),
     mkWorld (optimizers w) s
             (calls w ++ [AnalyzeWorkflow optimizer (Js.property fields "workflowId")])).
Proof.
  intros Hbody Htruthy Hcall.
  unfold createAnalyzeHandler, mbind, M_bind, destructure.
  rewrite Hbody. cbn. rewrite Htruthy. cbn.
  unfold analyzeWorkflow, invoke. by rewrite Hcall.
Qed.

Lemma optimize_on_falsy optimizer req fields next w :
  body req = Some fields →
  Js.ToBoolean (Js.property fields "workflow") = false →
  createOptimizeHandler optimizer req freshResponse next w
  = (Returned (req, mkResponse 400 (Some (ErrorJson "workflow is required"))), w).
Proof.
  intros Hbody Hfalsy. unfold createOptimizeHandler, mbind, M_bind, destructure.
  rewrite Hbody. cbn. by rewrite Hfalsy.
Qed.

Lemma critical_path_on_falsy optimizer req next w :
  Js.ToBoolean (Js.property (params req) "executionId") = false →
  createCriticalPathHandler optimizer req freshResponse next w
  = (Returned (req, mkResponse 400 (Some (ErrorJson "executionId is required"))), w).
Proof.
  intros Hfalsy. unfold createCriticalPathHandler. by rewrite Hfalsy.
Qed.

(** The critical-path handler on a truthy identifier, once the collector
    has handed over its executions: the search decides. *)
Lemma critical_path_on_truthy optimizer req next w collector s1 executions s2 :
  Js.ToBoolean (Js.property (params req) "executionId") = true →
  getTelemetryCollector_impl optimizer (libState w) = (Returned collector, s1) →
  getWorkflowExecutions_impl collector s1 = (Returned executions, s2) →
  createCriticalPathHandler optimizer req freshResponse next w
  = match Js.find (λ e, Js.strict_eq (Js.Str (id e))
                                     (Js.property (params req) "executionId"))
                  executions with
    | None =>
        (Returned (req, mkResponse 404 (Some (ErrorJson "Execution not found"))),
         mkWorld (optimizers w) s2
                 (calls w ++ [GetTelemetryCollector optimizer;
                              GetWorkflowExecutions collector]))
    | Some execution =>
        let '(r, s3) := analyzeExecutionCriticalPath_impl optimizer execution s2 in
        (match r with
         | Returned path => Returned (req, mkResponse 200 (Some (CriticalPathJson path)))
         | Thrown e => Thrown e
         end,
         mkWorld (optimizers w) s3
                 (calls w ++ [GetTelemetryCollector optimizer;
                              GetWorkflowExecutions collector;
                              AnalyzeExecutionCriticalPath optimizer execution]))
    end.
Proof.
  intros Htruthy Hcollector Hexecutions.
  unfold createCriticalPathHandler. rewrite Htruthy. cbn.
  unfold mbind, M_bind, getTelemetryCollector, getWorkflowExecutions, invoke.
  rewrite Hcollector. cbn. rewrite Hexecutions. cbn.
  destruct (Js.find _ executions) as [execution|]; cbn.
  - unfold analyzeExecutionCriticalPath, invoke. cbn.
    destruct (analyzeExecutionCriticalPath_impl optimizer execution s2) as [[path|e] s3];
      cbn; by rewrite <- !app_assoc.
  - by rewrite <- !app_assoc.
Qed.

(** [find] on an array with no match. *)
Lemma find_none {A} (p : A → bool) (arr : list A) :
  (∀ x, x ∈ arr → p x = false) → Js.find p arr = None.
Proof.
  induction arr as [|x rest IH]; intros Hnone; [done|]. cbn.
  rewrite (Hnone x) by apply list_elem_of_here.
  apply IH. intros y Hy. apply Hnone. by apply list_elem_of_further.
Qed.

End Handlers.

(** ** The handlers' claims *)

Section HandlerClaims.

Context {L : OptimizerLibrary}.

Lemma strict_eq_Str (s : string) (v : Js.Value) :
  Js.strict_eq (Js.Str s) v = true ↔ Js.Str s = v.
Proof.
  destruct v; cbn; try (split; [discriminate | discriminate]).
  rewrite String.eqb_eq. split; [by intros -> | by intros [= ->]].
Qed.

(** [find] returns the record at the only matching position. *)
Lemma find_unique {A} (p : A → bool) (arr : list A) (i : nat) (x : A) :
  arr !! i = Some x → p x = true →
  (∀ j y, arr !! j = Some y → p y = true → j = i) →
  Js.find p arr = Some x.
Proof.
  revert i. induction arr as [|y rest IH]; intros i Hi Hp Honly; [done|].
  cbn. destruct (p y) eqn:Hy.
  - specialize (Honly 0 y eq_refl Hy). subst i. by injection Hi as ->.
  - destruct i as [|i]; [injection Hi as ->; congruence|].
    apply (IH i); [done | done |].
    intros j z Hj Hz. specialize (Honly (S j) z Hj Hz). lia.
Qed.

(** C3. Every request to the analyze handler whose body has no
    [workflowId] field is answered with status 400 and the body
    [{error: "workflowId is required"}]; the world is returned as it was,
    so the call log has not grown and [analyzeWorkflow] was not invoked. *)
Theorem analyze_requires_workflowId optimizer req fields next w :
  body req = Some fields →
  fields !! "workflowId" = None →
  createAnalyzeHandler optimizer req freshResponse next w
  = (Returned (req, mkResponse 400 (Some (ErrorJson "workflowId is required"))), w).
Proof.
  intros Hbody Habsent. apply (analyze_on_falsy _ _ fields); [done|].
  by rewrite property_absent.
Qed.

(** C4, amended. Every request to the analyze handler whose body carries a
    truthy [workflowId] makes the handler invoke [analyzeWorkflow] with
    exactly that identifier, the only call it adds to the log; when the
    call returns, its result is stored on the request and is the JSON body
    of a response with status 200. *)
Theorem analyze_truthy_workflowId optimizer req fields workflowId next w a s :
  body req = Some fields →
  fields !! "workflowId" = Some workflowId →
  Js.ToBoolean workflowId = true →
  analyzeWorkflow_impl optimizer workflowId (libState w) = (Returned a, s) →
  createAnalyzeHandler optimizer req freshResponse next w
  = (Returned (mkRequest (body req) (params req) (workflowOptimizer req)
                         (Some a) (criticalPath req),
               mkResponse 200 (Some (AnalysisJson a))),
     mkWorld (optimizers w) s (calls w ++ [AnalyzeWorkflow optimizer workflowId])).
Proof.
  intros Hbody Hpresent Htruthy Hcall.
  pose proof (property_present _ _ _ Hpresent) as Hprop.
  rewrite <- Hprop in *. by apply analyze_on_truthy.
Qed.

(** C5, amended. For every request to the critical-path handler with a
    truthy [executionId], if no execution record of the collector's list
    has an id equal to it, the response has status 404 and the body
    [{error: "Execution not found"}]; the log gains the two collector calls
    only, so [analyzeExecutionCriticalPath] was not invoked. *)
Theorem critical_path_missing optimizer req executionId next w collector s1 executions s2 :
  params req !! "executionId" = Some executionId →
  Js.ToBoolean executionId = true →
  getTelemetryCollector_impl optimizer (libState w) = (Returned collector, s1) →
  getWorkflowExecutions_impl collector s1 = (Returned executions, s2) →
  (∀ e, e ∈ executions → Js.Str (id e) ≠ executionId) →
  createCriticalPathHandler optimizer req freshResponse next w
  = (Returned (req, mkResponse 404 (Some (ErrorJson "Execution not found"))),
     mkWorld (optimizers w) s2
             (calls w ++ [GetTelemetryCollector optimizer;
                          GetWorkflowExecutions collector])).
Proof.
  intros Hpresent Htruthy Hcollector Hexecutions Hnone.
  pose proof (property_present _ _ _ Hpresent) as Hprop.
  rewrite (critical_path_on_truthy _ _ _ _ collector s1 executions s2);
    [| by rewrite Hprop | done | done].
  rewrite find_none; [done|].
  intros e He. rewrite Hprop.
  destruct (Js.strict_eq _ _) eqn:Heq; [|done].
  apply strict_eq_Str in Heq. by destruct (Hnone e He).
Qed.

(** C6, amended. For every request to the critical-path handler with a
    truthy [executionId] such that exactly one position of the collector's
    execution list holds a record with an id equal to it, the handler
    invokes [analyzeExecutionCriticalPath] with that record and, when the
    call returns, responds with status 200 and its result as JSON body. *)
Theorem critical_path_found
    optimizer req executionId next w collector s1 executions s2 i execution path s3 :
  params req !! "executionId" = Some executionId →
  Js.ToBoolean executionId = true →
  getTelemetryCollector_impl optimizer (libState w) = (Returned collector, s1) →
  getWorkflowExecutions_impl collector s1 = (Returned executions, s2) →
  executions !! i = Some execution →
  Js.Str (id execution) = executionId →
  (∀ j e, executions !! j = Some e → Js.Str (id e) = executionId → j = i) →
  analyzeExecutionCriticalPath_impl optimizer execution s2 = (Returned path, s3) →
  createCriticalPathHandler optimizer req freshResponse next w
  = (Returned (req, mkResponse 200 (Some (CriticalPathJson path))),
     mkWorld (optimizers w) s3
             (calls w ++ [GetTelemetryCollector optimizer;
                          GetWorkflowExecutions collector;
                          AnalyzeExecutionCriticalPath optimizer execution])).
Proof.
  intros Hpresent Htruthy Hcollector Hexecutions Hi Hid Honly Hpath.
  pose proof (property_present _ _ _ Hpresent) as Hprop.
  rewrite (critical_path_on_truthy _ _ _ _ collector s1 executions s2);
    [| by rewrite Hprop | done | done].
  rewrite (find_unique _ _ i execution); [by rewrite Hpath | done | |].
  - rewrite Hprop. by apply strict_eq_Str.
  - intros j e Hj He. apply (Honly j e Hj). apply strict_eq_Str.
    by rewrite <- Hprop.
Qed.

(** C9. The presence checks are falsiness checks. For every falsy value
    [v] (the empty string, 0, false and null among them): a request whose
    [workflowId], [workflow] or [executionId] field is present with value
    [v] gets from the analyze, optimize and critical-path handler the 400
    response a request without the field gets, and the world is returned
    as it was: no optimizer operation was invoked. *)
Theorem falsy_field_rejected optimizer next w (v : Js.Value) :
  Js.ToBoolean v = false →
  (∀ req fields,
      body req = Some fields →
      fields !! "workflowId" = Some v ∨ fields !! "workflowId" = None →
      createAnalyzeHandler optimizer req freshResponse next w
      = (Returned (req, mkResponse 400 (Some (ErrorJson "workflowId is required"))), w))
  ∧ (∀ req fields,
      body req = Some fields →
      fields !! "workflow" = Some v ∨ fields !! "workflow" = None →
      createOptimizeHandler optimizer req freshResponse next w
      = (Returned (req, mkResponse 400 (Some (ErrorJson "workflow is required"))), w))
  ∧ (∀ req,
      params req !! "executionId" = Some v ∨ params req !! "executionId" = None →
      createCriticalPathHandler optimizer req freshResponse next w
      = (Returned (req, mkResponse 400 (Some (ErrorJson "executionId is required"))), w)).
Proof.
  intros Hfalsy. split; [|split].
  - intros req fields Hbody [Hv | Habsent];
      apply (analyze_on_falsy _ _ fields); try done.
    + by rewrite (property_present _ _ _ Hv).
    + by rewrite property_absent.
  - intros req fields Hbody [Hv | Habsent];
      apply (optimize_on_falsy _ _ fields); try done.
    + by rewrite (property_present _ _ _ Hv).
    + by rewrite property_absent.
  - intros req [Hv | Habsent]; apply critical_path_on_falsy.
    + by rewrite (property_present _ _ _ Hv).
    + by rewrite property_absent.
Qed.

End HandlerClaims.

(** ** The handlers on concrete requests *)

(** C3 at a request that carries a workflow definition and no identifier. *)
Lemma analyze_requires_workflowId_witness :
  createAnalyzeHandler (L := Demo.library) 0
    (Demo.request (Some {["workflow" := Js.Obj 1]}) ∅) freshResponse Demo.next Demo.world
  = (Returned (Demo.request (Some {["workflow" := Js.Obj 1]}) ∅,
               mkResponse 400 (Some (ErrorJson "workflowId is required"))),
     Demo.world).
Proof.
  apply (analyze_requires_workflowId (L := Demo.library) 0 _ {["workflow" := Js.Obj 1]});
    reflexivity.
Defined.

(** C4, counterexample: the empty string is a present [workflowId], the
    library would analyse it, and the handler answers 400 without calling. *)
Lemma empty_id_not_analysed :
  createAnalyzeHandler (L := Demo.library) 0
    (Demo.request (Some {["workflowId" := Js.Str ""]}) ∅) freshResponse Demo.next Demo.world
  = (Returned (Demo.request (Some {["workflowId" := Js.Str ""]}) ∅,
               mkResponse 400 (Some (ErrorJson "workflowId is required"))),
     Demo.world)
  ∧ ¬ present_id_is_analysed (L := Demo.library).
Proof.
  split; [reflexivity|]. intros Hstated.
  specialize (Hstated 0 (Demo.request (Some {["workflowId" := Js.Str ""]}) ∅)
                      {["workflowId" := Js.Str ""]} (Js.Str "") Demo.next Demo.world
                      (Js.Str "", 2) (libState Demo.world)
                      eq_refl eq_refl eq_refl).
  discriminate Hstated.
Qed.

(** C4 amended, at the identifier ["wf-1"]. *)
Lemma analyze_truthy_workflowId_witness :
  createAnalyzeHandler (L := Demo.library) 0
    (Demo.request (Some {["workflowId" := Js.Str "wf-1"]}) ∅) freshResponse Demo.next Demo.world
  = (Returned (mkRequest (L := Demo.library) (Some {["workflowId" := Js.Str "wf-1"]}) ∅ None
                         (Some (Js.Str "wf-1", 2)) None,
               mkResponse 200 (Some (AnalysisJson (L := Demo.library) (Js.Str "wf-1", 2)))),
     mkWorld (L := Demo.library) [] (libState Demo.world) [AnalyzeWorkflow 0 (Js.Str "wf-1")]).
Proof.
  apply (analyze_truthy_workflowId (L := Demo.library) 0
           (Demo.request (Some {["workflowId" := Js.Str "wf-1"]}) ∅)
           {["workflowId" := Js.Str "wf-1"]} (Js.Str "wf-1") Demo.next Demo.world);
    reflexivity.
Defined.

(** C5, counterexample: the empty string is a present [executionId] that no
    recorded execution has, and the handler answers 400, not 404. *)
Lemma empty_id_unmatched_is_400 :
  createCriticalPathHandler (L := Demo.library) 0
    (Demo.request None {["executionId" := Js.Str ""]}) freshResponse Demo.next Demo.world
  = (Returned (Demo.request None {["executionId" := Js.Str ""]},
               mkResponse 400 (Some (ErrorJson "executionId is required"))),
     Demo.world)
  ∧ ¬ present_id_unmatched_is_404 (L := Demo.library).
Proof.
  split; [reflexivity|]. intros Hstated.
  specialize (Hstated 0 (Demo.request None {["executionId" := Js.Str ""]})
                      (Js.Str "") Demo.next Demo.world 0 (libState Demo.world)
                      (libState Demo.world) (libState Demo.world)
                      eq_refl eq_refl eq_refl).
  assert (Hnone : ∀ e : string * list string,
             e ∈ libState Demo.world → Js.Str (e.1) ≠ Js.Str "").
  { intros e He. cbn in He. rewrite !elem_of_cons, elem_of_nil in He.
    destruct He as [-> | [-> | []]]; discriminate. }
  specialize (Hstated Hnone). discriminate Hstated.
Qed.

(** C5 amended, at an identifier no recorded execution has. *)
Lemma critical_path_missing_witness :
  createCriticalPathHandler (L := Demo.library) 0
    (Demo.request None {["executionId" := Js.Str "exec-9"]}) freshResponse
    Demo.next Demo.world
  = (Returned (Demo.request None {["executionId" := Js.Str "exec-9"]},
               mkResponse 404 (Some (ErrorJson "Execution not found"))),
     mkWorld (L := Demo.library) [] (libState Demo.world) [GetTelemetryCollector 0; GetWorkflowExecutions (L := Demo.library) 0]).
Proof.
  apply (critical_path_missing (L := Demo.library) 0
           (Demo.request None {["executionId" := Js.Str "exec-9"]})
           (Js.Str "exec-9") Demo.next Demo.world 0 (libState Demo.world)
           (libState Demo.world) (libState Demo.world));
    try reflexivity.
  intros e He. cbn in He. rewrite !elem_of_cons, elem_of_nil in He.
  destruct He as [-> | [-> | []]]; discriminate.
Defined.

(** C6, counterexample: exactly one recorded execution has the empty
    identifier, the request asks for it, and the handler answers 400. *)
Lemma empty_id_matched_is_400 :
  createCriticalPathHandler (L := Demo.library) 0
    (Demo.request None {["executionId" := Js.Str ""]}) freshResponse
    Demo.next Demo.worldWithUnnamed
  = (Returned (Demo.request None {["executionId" := Js.Str ""]},
               mkResponse 400 (Some (ErrorJson "executionId is required"))),
     Demo.worldWithUnnamed)
  ∧ ¬ present_id_matched_is_200 (L := Demo.library).
Proof.
  split; [reflexivity|]. intros Hstated.
  specialize (Hstated 0 (Demo.request None {["executionId" := Js.Str ""]})
                      (Js.Str "") Demo.next Demo.worldWithUnnamed 0
                      (libState Demo.worldWithUnnamed)
                      (libState Demo.worldWithUnnamed) (libState Demo.worldWithUnnamed)
                      1 ("", ["plan"]) ["plan"] (libState Demo.worldWithUnnamed)
                      eq_refl eq_refl eq_refl eq_refl eq_refl).
  assert (Honly : ∀ (j : nat) (e : string * list string),
             libState Demo.worldWithUnnamed !! j = Some e →
             Js.Str (e.1) = Js.Str "" → j = 1).
  { intros [|[|j]] e; cbn; [|done|by destruct j].
    by intros [= <-]. }
  specialize (Hstated Honly eq_refl). discriminate Hstated.
Qed.

(** C6 amended, at the identifier of the first recorded execution. *)
Lemma critical_path_found_witness :
  createCriticalPathHandler (L := Demo.library) 0
    (Demo.request None {["executionId" := Js.Str "exec-1"]}) freshResponse
    Demo.next Demo.world
  = (Returned (Demo.request None {["executionId" := Js.Str "exec-1"]},
               mkResponse 200 (Some (CriticalPathJson (L := Demo.library) ["fetch"; "rank"]))),
     mkWorld (L := Demo.library) [] (libState Demo.world)
             [GetTelemetryCollector 0; GetWorkflowExecutions (L := Demo.library) 0;
              AnalyzeExecutionCriticalPath (L := Demo.library) 0 ("exec-1", ["fetch"; "rank"])]).
Proof.
  apply (critical_path_found (L := Demo.library) 0
           (Demo.request None {["executionId" := Js.Str "exec-1"]})
           (Js.Str "exec-1") Demo.next Demo.world 0 (libState Demo.world)
           (libState Demo.world) (libState Demo.world) 0 ("exec-1", ["fetch"; "rank"]));
    try reflexivity.
  intros [|[|j]] e; cbn; [done| |by destruct j].
  intros [= <-]. discriminate.
Defined.

(** C9 at the value [0], in the place of each of the three fields. *)
Lemma falsy_field_rejected_witness :
  createAnalyzeHandler (L := Demo.library) 0
    (Demo.request (Some {["workflowId" := Js.Num 0]}) ∅) freshResponse Demo.next Demo.world
  = (Returned (Demo.request (Some {["workflowId" := Js.Num 0]}) ∅,
               mkResponse 400 (Some (ErrorJson "workflowId is required"))),
     Demo.world)
  ∧ createOptimizeHandler (L := Demo.library) 0
      (Demo.request (Some {["workflow" := Js.Num 0]}) ∅) freshResponse Demo.next Demo.world
    = (Returned (Demo.request (Some {["workflow" := Js.Num 0]}) ∅,
                 mkResponse 400 (Some (ErrorJson "workflow is required"))),
       Demo.world)
  ∧ createCriticalPathHandler (L := Demo.library) 0
      (Demo.request None {["executionId" := Js.Num 0]}) freshResponse Demo.next Demo.world
    = (Returned (Demo.request None {["executionId" := Js.Num 0]},
                 mkResponse 400 (Some (ErrorJson "executionId is required"))),
       Demo.world).
Proof.
  destruct (falsy_field_rejected (L := Demo.library) 0 Demo.next Demo.world (Js.Num 0) eq_refl)
    as (Hanalyze & Hoptimize & Hcritical).
  split; [|split].
  - apply (Hanalyze _ {["workflowId" := Js.Num 0]}); [reflexivity | left; reflexivity].
  - apply (Hoptimize _ {["workflow" := Js.Num 0]}); [reflexivity | left; reflexivity].
  - apply Hcritical. left; reflexivity.
Defined.

(** ** Strings: [replace] against stripping a suffix *)

Section Strings.

Lemma app_cons a (s r : string) : String a s +:+ r = String a (s +:+ r).
Proof. reflexivity. Qed.

Lemma app_nil (r : string) : "" +:+ r = r.
Proof. reflexivity. Qed.

Lemma startsWith_app pat r : Js.startsWith pat (pat +:+ r) = true.
Proof.
  induction pat as [|a pat IH]; [done|].
  rewrite app_cons. cbn [Js.startsWith]. by rewrite Ascii.eqb_refl, IH.
Qed.

Lemma drop_app pat r : Js.drop (String.length pat) (pat +:+ r) = r.
Proof. induction pat as [|a pat IH]; [done | exact IH]. Qed.

Lemma app_empty_r (s : string) : s +:+ "" = s.
Proof. induction s as [|a s IH]; [done|]. by rewrite app_cons, IH. Qed.

(** A string is its stripped form, with or without the suffix behind. *)
Lemma stripSuffix_cases suffix s :
  s = stripSuffix suffix s ∨ s = stripSuffix suffix s +:+ suffix.
Proof.
  induction s as [|c s IH].
  - cbn. destruct suffix; cbn; auto.
  - cbn [stripSuffix]. destruct (String.eqb (String c s) suffix) eqn:Heq.
    + apply String.eqb_eq in Heq. by right.
    + destruct IH as [IH | IH]; [left | right]; rewrite ?app_cons; by rewrite <- IH.
Qed.

(** Where a pattern can start in front of a string that begins with [c]:
    inside what comes before, or so that it runs over the [c]. *)
Lemma startsWith_overlap pat q c t :
  Js.startsWith pat (q +:+ String c t) = true →
  Js.startsWith pat q = true ∨ String.get (String.length q) pat = Some c.
Proof.
  revert q. induction pat as [|a pat IH]; intros q; [by left|].
  destruct q as [|b q]; rewrite ?app_cons, ?app_nil; cbn [Js.startsWith String.length String.get].
  - intros [Hac _]%andb_prop. apply Ascii.eqb_eq in Hac. right. by subst.
  - intros [Hab Hrest]%andb_prop. rewrite Hab.
    destruct (IH q Hrest) as [H | H]; auto.
Qed.

(** When the first character of the pattern does not come back in it, and
    the pattern occurs nowhere in front of a trailing occurrence,
    [replace] with the empty string strips that trailing occurrence. *)
Lemma replace_stripSuffix c t a :
  (∀ n, String.get n t ≠ Some c) →
  Js.includes (String c t) (stripSuffix (String c t) a) = false →
  Js.replace (String c t) "" a = stripSuffix (String c t) a.
Proof.
  intros Hfresh. set (pat := String c t).
  induction a as [|b a IH]; intros Hclean; [done|].
  cbn [stripSuffix] in *. destruct (String.eqb (String b a) pat) eqn:Heq.
  - apply String.eqb_eq in Heq. rewrite Heq.
    pose proof (startsWith_app pat "") as Hself.
    pose proof (drop_app pat "") as Hdrop.
    rewrite app_empty_r in Hself, Hdrop.
    destruct pat; [done|]. cbn [Js.replace]. by rewrite Hself, Hdrop.
  - cbn [Js.includes] in Hclean.
    destruct (Js.startsWith pat (String b (stripSuffix pat a))) eqn:Hhead; [done|].
    assert (Hstart : Js.startsWith pat (String b a) = false).
    { destruct (stripSuffix_cases pat a) as [Hsame | Hsuffix].
      - by rewrite Hsame.
      - destruct (Js.startsWith pat (String b a)) eqn:Hstart; [|done].
        rewrite Hsuffix in Hstart.
        change (String b (stripSuffix pat a +:+ pat))
          with (String b (stripSuffix pat a) +:+ String c t) in Hstart.
        apply startsWith_overlap in Hstart as [Hstart | Hget]; [congruence|].
        cbn in Hget. by destruct (Hfresh _ Hget). }
    cbn [Js.replace]. rewrite Hstart. by rewrite IH.
Qed.

Lemma replace_analyze a :
  Js.includes "/analyze" (stripSuffix "/analyze" a) = false →
  Js.replace "/analyze" "" a = stripSuffix "/analyze" a.
Proof.
  apply replace_stripSuffix.
  intros n. do 8 (destruct n as [|n]; [discriminate|]). discriminate.
Qed.

End Strings.

(** ** The route table and the app factory *)

Section AppClaims.

Context {L : OptimizerLibrary}.

Lemma app_inj_l (b s1 s2 : string) : b +:+ s1 = b +:+ s2 → s1 = s2.
Proof.
  induction b as [|a b IH]; [done|]. rewrite !app_cons. intros [= H]. auto.
Qed.

(** The table of [setupOptimizerRoutes], by key: the four suffixes differ,
    so no key replaces another. *)
Lemma setup_routes_lookup optimizer (base : string) :
  ∃ table,
    (∀ w, setupOptimizerRoutes optimizer (Some base) w = (Returned table, w))
    ∧ size table = 4
    ∧ table !! (base +:+ "/analyze")
      = Some (mkRoute "post" (createAnalyzeHandler optimizer))
    ∧ table !! (base +:+ "/optimize")
      = Some (mkRoute "post" (createOptimizeHandler optimizer))
    ∧ table !! (base +:+ "/metrics")
      = Some (mkRoute "get" (createMetricsHandler optimizer))
    ∧ table !! (base +:+ "/critical-path/:executionId")
      = Some (mkRoute "get" (createCriticalPathHandler optimizer))
    ∧ ∀ key, is_Some (table !! key) →
             key ∈ [base +:+ "/analyze"; base +:+ "/optimize"; base +:+ "/metrics";
                    base +:+ "/critical-path/:executionId"].
Proof.
  eexists. split; [reflexivity|].
  assert (Hne : ∀ s1 s2 : string, s1 ≠ s2 → base +:+ s1 ≠ base +:+ s2).
  { intros s1 s2 Hs Heq. by apply Hs, (app_inj_l base). }
  repeat split.
  - rewrite !map_size_insert_None, map_size_empty; [done|..];
      rewrite ?lookup_insert_ne, ?lookup_empty by (by apply Hne); done.
  - rewrite !lookup_insert_ne by (by apply Hne). by rewrite lookup_insert_eq.
  - rewrite !lookup_insert_ne by (by apply Hne). by rewrite lookup_insert_eq.
  - rewrite !lookup_insert_ne by (by apply Hne). by rewrite lookup_insert_eq.
  - by rewrite lookup_insert_eq.
  - intros key [route Hkey]. rewrite !elem_of_cons.
    repeat (apply lookup_insert_Some in Hkey as [[<- _] | [_ Hkey]]; [by auto|]).
    by rewrite lookup_empty in Hkey.
Qed.

(** What the app factory computes, step by step: two constructor calls,
    the second inside [createOptimizerMiddleware], then the table. *)
Lemma createOptimizerApp_run config w :
  let cfg := default emptyConfig config in
  let own := {| optAutoOptimize := default true (autoOptimize cfg) |} in
  let attached := {| optAutoOptimize := default false (autoOptimize cfg) |} in
  let w' := mkWorld (optimizers w ++ [own; attached]) (libState w)
                    (calls w ++ [CreateOptimizer own; CreateOptimizer attached]) in
  ∃ app,
    createOptimizerApp config w = (Returned app, w')
    ∧ optimizer app = length (optimizers w)
    ∧ attaches (middleware app) (S (length (optimizers w)))
    ∧ setupOptimizerRoutes (optimizer app)
        (Some (Js.or_else (strippedAnalyzePath cfg) "/api/optimizer")) w'
      = (Returned (routes app), w').
Proof.
  intros cfg own attached w'. eexists. split; [|split; [|split]].
  - unfold createOptimizerApp, createOptimizerMiddleware, setupOptimizerRoutes,
      mbind, M_bind, createOptimizer, mret, M_ret. cbn.
    rewrite <- !app_assoc. cbn. reflexivity.
  - reflexivity.
  - intros req res next w0. cbn. by rewrite length_app, Nat.add_1_r.
  - reflexivity.
Qed.

Lemma createOptimizerMiddleware_run config w :
  let attached :=
    {| optAutoOptimize := default false (autoOptimize (default emptyConfig config)) |} in
  ∃ mw,
    createOptimizerMiddleware config w
    = (Returned mw,
       mkWorld (optimizers w ++ [attached]) (libState w)
               (calls w ++ [CreateOptimizer attached]))
    ∧ attaches mw (length (optimizers w)).
Proof. intros attached. eexists. split; [reflexivity | by intros req res next w0]. Qed.

(** Two base paths with one table: the analyze key of the first is a key
    of the second. *)
Lemma setup_routes_same_table optimizer (b1 b2 : string) w1 w2 table :
  setupOptimizerRoutes optimizer (Some b1) w1 = (Returned table, w1) →
  setupOptimizerRoutes optimizer (Some b2) w2 = (Returned table, w2) →
  b1 +:+ "/analyze" ∈ [b2 +:+ "/analyze"; b2 +:+ "/optimize"; b2 +:+ "/metrics";
                        b2 +:+ "/critical-path/:executionId"].
Proof.
  intros H1 H2.
  destruct (setup_routes_lookup optimizer b1) as (t1 & Ht1 & _ & Hanalyze & _).
  destruct (setup_routes_lookup optimizer b2) as (t2 & Ht2 & _ & _ & _ & _ & _ & Hkeys).
  rewrite Ht1 in H1. rewrite Ht2 in H2.
  injection H1 as ->. injection H2 as ->.
  apply Hkeys. by rewrite Hanalyze.
Qed.

(** A handler attaches one optimizer only. *)
Lemma attaches_unique (w : World) mw h1 h2 : attaches mw h1 → attaches mw h2 → h1 = h2.
Proof.
  intros H1 H2.
  specialize (H1 (mkRequest None ∅ None None None) freshResponse (λ r s, mret (r, s)) w).
  specialize (H2 (mkRequest None ∅ None None None) freshResponse (λ r s, mret (r, s)) w).
  rewrite H1 in H2. by injection H2.
Qed.

(** C7. For every optimizer and base path, [setupOptimizerRoutes] returns
    a table that depends on these two alone, in every world, and returns
    the world as it was: it constructs nothing, calls nothing and does not
    throw. For the base path ["/custom"] the table has exactly four
    entries: ["/custom/analyze"] and ["/custom/optimize"] with method
    post, ["/custom/metrics"] and ["/custom/critical-path/:executionId"]
    with method get, each with its handler over the optimizer given. *)
Theorem setup_routes_custom optimizer :
  (∀ basePath, ∃ table,
      ∀ w, setupOptimizerRoutes optimizer basePath w = (Returned table, w))
  ∧ ∃ table,
      (∀ w, setupOptimizerRoutes optimizer (Some "/custom") w = (Returned table, w))
      ∧ size table = 4
      ∧ table !! "/custom/analyze"
        = Some (mkRoute "post" (createAnalyzeHandler optimizer))
      ∧ table !! "/custom/optimize"
        = Some (mkRoute "post" (createOptimizeHandler optimizer))
      ∧ table !! "/custom/metrics"
        = Some (mkRoute "get" (createMetricsHandler optimizer))
      ∧ table !! "/custom/critical-path/:executionId"
        = Some (mkRoute "get" (createCriticalPathHandler optimizer))
      ∧ ∀ key, is_Some (table !! key) →
               key ∈ ["/custom/analyze"; "/custom/optimize"; "/custom/metrics";
                      "/custom/critical-path/:executionId"].
Proof.
  split.
  - intros basePath. eexists. intros w. reflexivity.
  - exact (setup_routes_lookup optimizer "/custom").
Qed.

(** C8. The bundle of [createOptimizerApp] holds two distinct optimizers.
    The factory makes two [createOptimizer] calls; its [optimizer] field
    is the first one constructed, which is also the one the route table is
    built over; the optimizer the bundle's middleware attaches to every
    request is the second, constructed inside [createOptimizerMiddleware],
    and is not the handle of the [optimizer] field. *)
Theorem app_has_two_optimizers config w :
  ∃ app w',
    createOptimizerApp config w = (Returned app, w')
    ∧ (∃ own attached : OptimizerOptions,
          optimizers w' = (optimizers w ++ [own; attached])%list
          ∧ calls w' = (calls w ++ [CreateOptimizer own; CreateOptimizer attached])%list)
    ∧ optimizer app = length (optimizers w)
    ∧ attaches (middleware app) (S (length (optimizers w)))
    ∧ (∀ h, attaches (middleware app) h → h ≠ optimizer app)
    ∧ ∃ base,
        setupOptimizerRoutes (optimizer app) (Some base) w' = (Returned (routes app), w')
        ∧ routes app !! (base +:+ "/analyze")
          = Some (mkRoute "post" (createAnalyzeHandler (optimizer app)))
        ∧ routes app !! (base +:+ "/optimize")
          = Some (mkRoute "post" (createOptimizeHandler (optimizer app)))
        ∧ routes app !! (base +:+ "/metrics")
          = Some (mkRoute "get" (createMetricsHandler (optimizer app)))
        ∧ routes app !! (base +:+ "/critical-path/:executionId")
          = Some (mkRoute "get" (createCriticalPathHandler (optimizer app))).
Proof.
  destruct (createOptimizerApp_run config w) as (app & Hrun & Hown & Hattached & Hroutes).
  eexists app, _. split; [exact Hrun|].
  split; [by eexists _, _|]. split; [exact Hown|]. split; [exact Hattached|]. split.
  - intros h Hh. rewrite (attaches_unique w _ _ _ Hh Hattached), Hown. lia.
  - eexists. split; [exact Hroutes|].
    destruct (setup_routes_lookup (optimizer app)
                (Js.or_else (strippedAnalyzePath (default emptyConfig config))
                            "/api/optimizer"))
      as (table & Htable & _ & Hanalyze & Hoptimize & Hmetrics & Hcritical & _).
    rewrite Htable in Hroutes. injection Hroutes as <-. auto.
Qed.

(** C2, amended. With the flag omitted, the optimizer a standalone
    [createOptimizerMiddleware] constructs and attaches has auto-optimize
    false. [createOptimizerApp] constructs two optimizers: the one of the
    bundle's [optimizer] field has auto-optimize true; the one its
    middleware attaches, constructed by [createOptimizerMiddleware] from
    the same configuration, has auto-optimize false. *)
Theorem auto_optimize_defaults config w :
  autoOptimize (default emptyConfig config) = None →
  (∃ mw w',
      createOptimizerMiddleware config w = (Returned mw, w')
      ∧ optimizers w' = (optimizers w ++ [{| optAutoOptimize := false |}])%list
      ∧ attaches mw (length (optimizers w)))
  ∧ (∃ app w',
      createOptimizerApp config w = (Returned app, w')
      ∧ optimizers w'
        = (optimizers w
             ++ [{| optAutoOptimize := true |}; {| optAutoOptimize := false |}])%list
      ∧ optimizer app = length (optimizers w)
      ∧ attaches (middleware app) (S (length (optimizers w)))).
Proof.
  intros Homitted. split.
  - destruct (createOptimizerMiddleware_run config w) as (mw & Hrun & Hattached).
    eexists mw, _. split; [exact Hrun|]. split; [|exact Hattached].
    cbn. by rewrite Homitted.
  - destruct (createOptimizerApp_run config w) as (app & Hrun & Hown & Hattached & _).
    eexists app, _. split; [exact Hrun|]. split; [|by split].
    cbn. by rewrite Homitted.
Qed.

(** C1, amended. The base path of the route table [createOptimizerApp]
    returns is the default ["/api/optimizer"] when no analyze-path override
    is given; for an override in which ["/analyze"] occurs nowhere but,
    possibly, as its trailing suffix, it is the override with that suffix
    stripped, or the default when nothing is left. *)
Theorem base_path_of_override config w :
  (∀ a, analyzeOverride config = Some a →
        Js.includes "/analyze" (stripSuffix "/analyze" a) = false) →
  ∃ app w',
    createOptimizerApp config w = (Returned app, w')
    ∧ setupOptimizerRoutes (optimizer app) (Some (amendedBasePath config)) w'
      = (Returned (routes app), w').
Proof.
  intros Hclean.
  destruct (createOptimizerApp_run config w) as (app & Hrun & _ & _ & Hroutes).
  eexists app, _. split; [exact Hrun|].
  replace (amendedBasePath config)
    with (Js.or_else (strippedAnalyzePath (default emptyConfig config)) "/api/optimizer");
    [exact Hroutes|].
  unfold amendedBasePath, analyzeOverride, strippedAnalyzePath in *.
  destruct (paths (default emptyConfig config)) as [p|]; [|done]. cbn in *.
  destruct (analyze p) as [a|]; [|done]. cbn in *.
  by rewrite (replace_analyze a (Hclean a eq_refl)).
Qed.

(** C10. When the analyze-path override is exactly ["/analyze"], what is
    left after the replacement is the empty string, and the route table of
    the bundle is the one for the default base path ["/api/optimizer"]. *)
Theorem bare_analyze_falls_back config w :
  analyzeOverride config = Some "/analyze" →
  strippedAnalyzePath (default emptyConfig config) = Some ""
  ∧ ∃ app w',
      createOptimizerApp config w = (Returned app, w')
      ∧ setupOptimizerRoutes (optimizer app) (Some "/api/optimizer") w'
        = (Returned (routes app), w')
      ∧ setupOptimizerRoutes (optimizer app) None w' = (Returned (routes app), w').
Proof.
  intros Hbare.
  assert (Hstripped : strippedAnalyzePath (default emptyConfig config) = Some "").
  { unfold analyzeOverride, strippedAnalyzePath in *.
    destruct (paths (default emptyConfig config)) as [p|]; [|done]. cbn in *.
    by rewrite Hbare. }
  split; [exact Hstripped|].
  destruct (createOptimizerApp_run config w) as (app & Hrun & _ & _ & Hroutes).
  rewrite Hstripped in Hroutes. eexists app, _. by split.
Qed.


(** Were the table that of the stated base path, the stated analyze key
    would be one of the keys under the base path the code computes. *)
Lemma stated_base_key config (w : World) :
  base_is_stripped_override config →
  statedBasePath config +:+ "/analyze"
  ∈ map (String.append
           (Js.or_else (strippedAnalyzePath (default emptyConfig config)) "/api/optimizer"))
        ["/analyze"; "/optimize"; "/metrics"; "/critical-path/:executionId"].
Proof.
  intros Hstated. destruct (Hstated w) as (app & w' & Hrun & Htable).
  destruct (createOptimizerApp_run config w) as (app' & Hrun' & _ & _ & Hroutes).
  rewrite Hrun in Hrun'. injection Hrun' as <- Hw'. rewrite <- Hw' in Hroutes.
  exact (setup_routes_same_table _ _ _ _ _ _ Htable Hroutes).
Qed.

End AppClaims.

(** ** The app factory on concrete configurations *)

(** [replace] takes the first occurrence, wherever it is. *)
Example replace_first_occurrence :
  Js.replace "/analyze" "" "/api/v2/analyze" = "/api/v2"
  ∧ Js.replace "/analyze" "" "/analyze/v2/analyze" = "/v2/analyze"
  ∧ Js.replace "/analyze" "" "/analyzer/run" = "r/run"
  ∧ Js.replace "/analyze" "" "/inspect" = "/inspect".
Proof. repeat split. Qed.

(** C1, counterexample. For the override ["/analyze"] the stripped path is
    empty and the table is that of the default base path; for
    ["/analyze/v2/analyze"] the trailing suffix stays and the leading
    occurrence goes. Neither table is the one of the base path as stated. *)
Lemma base_is_not_stripped_override :
  (statedBasePath (Demo.withAnalyzePath "/analyze") = ""
   ∧ Js.or_else (strippedAnalyzePath (default emptyConfig (Demo.withAnalyzePath "/analyze")))
                "/api/optimizer"
     = "/api/optimizer"
   ∧ ¬ base_is_stripped_override (L := Demo.library) (Demo.withAnalyzePath "/analyze"))
  ∧ (statedBasePath (Demo.withAnalyzePath "/analyze/v2/analyze") = "/analyze/v2"
     ∧ Js.or_else (strippedAnalyzePath
                     (default emptyConfig (Demo.withAnalyzePath "/analyze/v2/analyze")))
                  "/api/optimizer"
       = "/v2/analyze"
     ∧ ¬ base_is_stripped_override (L := Demo.library)
           (Demo.withAnalyzePath "/analyze/v2/analyze")).
Proof.
  split; (split; [reflexivity|]); (split; [reflexivity|]); intros Hstated;
    apply (stated_base_key (L := Demo.library) _ Demo.world) in Hstated as Hkey;
    cbn [map] in Hkey; rewrite !elem_of_cons, elem_of_nil in Hkey;
    destruct Hkey as [Hkey | [Hkey | [Hkey | [Hkey | []]]]];
    vm_compute in Hkey; discriminate Hkey.
Qed.

(** C1 amended, at the override ["/api/v2/analyze"]: the table is keyed
    under ["/api/v2"]. *)
Lemma base_path_of_override_witness :
  ∃ app w',
    createOptimizerApp (L := Demo.library) (Demo.withAnalyzePath "/api/v2/analyze") Demo.world
    = (Returned app, w')
    ∧ setupOptimizerRoutes (optimizer app) (Some "/api/v2") w' = (Returned (routes app), w').
Proof.
  apply (base_path_of_override (L := Demo.library) (Demo.withAnalyzePath "/api/v2/analyze") Demo.world).
  intros a [= <-]. reflexivity.
Defined.

(** C2, counterexample. With the flag omitted, the second optimizer the app
    factory constructs, the one its middleware attaches, has auto-optimize
    false. *)
Lemma attached_handle_defaults_false :
  optimizers (createOptimizerApp (L := Demo.library) None Demo.world).2
  = [{| optAutoOptimize := true |}; {| optAutoOptimize := false |}]
  ∧ ¬ factory_handles_default_true (L := Demo.library).
Proof.
  split; [reflexivity|]. intros Hstated.
  destruct (Hstated None Demo.world eq_refl) as [_ (app & w' & Hrun & Hall)].
  destruct (createOptimizerApp_run (L := Demo.library) None Demo.world)
    as (app' & Hrun' & _).
  rewrite Hrun in Hrun'. injection Hrun' as _ ->.
  specialize (Hall 1 {| optAutoOptimize := false |}). cbn in Hall.
  discriminate Hall; [lia | reflexivity].
Qed.

(** C2 amended, with no configuration at all. *)
Lemma auto_optimize_defaults_witness :
  (∃ mw w',
      createOptimizerMiddleware (L := Demo.library) None Demo.world = (Returned mw, w')
      ∧ optimizers w' = [{| optAutoOptimize := false |}]
      ∧ attaches mw 0)
  ∧ (∃ app w',
      createOptimizerApp (L := Demo.library) None Demo.world = (Returned app, w')
      ∧ optimizers w' = [{| optAutoOptimize := true |}; {| optAutoOptimize := false |}]
      ∧ optimizer app = 0
      ∧ attaches (middleware app) 1).
Proof.
  apply (auto_optimize_defaults (L := Demo.library) None Demo.world). reflexivity.
Defined.

(** C7 in the demo world, for optimizer 0. *)
Lemma setup_routes_custom_witness :
  ∃ table : gmap string (Route (L := Demo.library)),
    setupOptimizerRoutes 0 (Some "/custom") Demo.world = (Returned table, Demo.world)
    ∧ size table = 4
    ∧ table !! "/custom/analyze" = Some (mkRoute "post" (createAnalyzeHandler 0))
    ∧ table !! "/custom/optimize" = Some (mkRoute "post" (createOptimizeHandler 0))
    ∧ table !! "/custom/metrics" = Some (mkRoute "get" (createMetricsHandler 0))
    ∧ table !! "/custom/critical-path/:executionId"
      = Some (mkRoute "get" (createCriticalPathHandler 0)).
Proof.
  destruct (setup_routes_custom (L := Demo.library) 0)
    as (_ & table & Hrun & Hsize & Hanalyze & Hoptimize & Hmetrics & Hcritical & _).
  exists table. repeat split; [apply Hrun | assumption..].
Defined.

(** C8 with no configuration: the bundle's optimizer is handle 0, its
    middleware attaches handle 1. *)
Lemma app_has_two_optimizers_witness :
  ∃ app w',
    createOptimizerApp (L := Demo.library) None Demo.world = (Returned app, w')
    ∧ optimizer app = 0
    ∧ attaches (middleware app) 1.
Proof.
  destruct (app_has_two_optimizers (L := Demo.library) None Demo.world)
    as (app & w' & Hrun & _ & Hown & Hattached & _).
  by exists app, w'.
Defined.

(** C10 at a configuration that gives ["/analyze"] as the analyze path. *)
Lemma bare_analyze_falls_back_witness :
  ∃ app w',
    createOptimizerApp (L := Demo.library) (Demo.withAnalyzePath "/analyze") Demo.world
    = (Returned app, w')
    ∧ routes app !! "/api/optimizer/analyze"
      = Some (mkRoute "post" (createAnalyzeHandler (optimizer app)))
    ∧ routes app !! "/analyze" = None.
Proof.
  destruct (bare_analyze_falls_back (L := Demo.library)
              (Demo.withAnalyzePath "/analyze") Demo.world eq_refl)
    as (_ & app & w' & Hrun & Hroutes & _).
  exists app, w'. split; [exact Hrun|].
  destruct (setup_routes_lookup (L := Demo.library) (optimizer app) "/api/optimizer")
    as (table & Htable & _ & Hanalyze & _ & _ & _ & Hkeys).
  rewrite Htable in Hroutes. injection Hroutes as <-.
  split; [exact Hanalyze|].
  destruct (table !! "/analyze") as [route|] eqn:Hbare; [|reflexivity].
  specialize (Hkeys "/analyze"). rewrite Hbare in Hkeys.
  specialize (Hkeys (mk_is_Some _ _ eq_refl)).
  rewrite !elem_of_cons, elem_of_nil in Hkeys.
  destruct Hkeys as [Hkey | [Hkey | [Hkey | [Hkey | []]]]];
    vm_compute in Hkey; discriminate Hkey.
Defined.

(** ** Beyond the specification: the handlers' other paths *)

Section HandlerPaths.

Context {L : OptimizerLibrary}.

(** [find] returns the first record that matches, whatever follows it. *)
Lemma find_first {A} (p : A → bool) (before after : list A) (x : A) :
  (∀ y, y ∈ before → p y = false) → p x = true →
  Js.find p (before ++ x :: after) = Some x.
Proof.
  induction before as [|y before IH]; intros Hbefore Hx; cbn.
  - by rewrite Hx.
  - rewrite (Hbefore y) by apply list_elem_of_here.
    apply IH; [|done]. intros z Hz. apply Hbefore. by apply list_elem_of_further.
Qed.

Lemma find_matches {A} (p : A → bool) (arr : list A) (x : A) :
  Js.find p arr = Some x → x ∈ arr ∧ p x = true.
Proof.
  induction arr as [|y arr IH]; cbn; [done|].
  destruct (p y) eqn:Hy.
  - intros [= ->]. split; [apply list_elem_of_here | done].
  - intros Hfind. destruct (IH Hfind). split; [by apply list_elem_of_further | done].
Qed.

Lemma find_none_inv {A} (p : A → bool) (arr : list A) :
  Js.find p arr = None → ∀ x, x ∈ arr → p x = false.
Proof.
  induction arr as [|y arr IH]; cbn; intros Hfind x Hx; [by apply elem_of_nil in Hx|].
  destruct (p y) eqn:Hy; [done|].
  apply elem_of_cons in Hx as [-> | Hx]; [done | by apply IH].
Qed.

(** X1. The optimize handler on a truthy workflow: the same shape as the analyze
    handler, except that nothing is stored on the request. *)
Theorem optimize_truthy_workflow optimizer req fields workflow next w result s :
  body req = Some fields →
  fields !! "workflow" = Some workflow →
  Js.ToBoolean workflow = true →
  optimizeWorkflow_impl optimizer workflow (libState w) = (Returned result, s) →
  createOptimizeHandler optimizer req freshResponse next w
  = (Returned (req, mkResponse 200 (Some (OptimizationJson result))),
     mkWorld (optimizers w) s (calls w ++ [OptimizeWorkflow optimizer workflow])).
Proof.
  intros Hbody Hpresent Htruthy Hcall.
  unfold createOptimizeHandler, mbind, M_bind, destructure. rewrite Hbody. cbn.
  rewrite (property_present _ _ _ Hpresent), Htruthy. cbn.
  unfold optimizeWorkflow, invoke. by rewrite Hcall.
Qed.

(** X2. The metrics handler reads nothing of the request: whatever its body and
    parameters, even with no body at all, the two collector calls are made
    and the metrics are the body of a 200 response. *)
Theorem metrics_any_request optimizer req next w collector s1 metrics s2 :
  getTelemetryCollector_impl optimizer (libState w) = (Returned collector, s1) →
  getAggregatedMetrics_impl collector s1 = (Returned metrics, s2) →
  createMetricsHandler optimizer req freshResponse next w
  = (Returned (req, mkResponse 200 (Some (MetricsJson metrics))),
     mkWorld (optimizers w) s2
             (calls w ++ [GetTelemetryCollector optimizer; GetAggregatedMetrics collector])).
Proof.
  intros Hcollector Hmetrics.
  unfold createMetricsHandler, mbind, M_bind, getTelemetryCollector,
    getAggregatedMetrics, invoke.
  rewrite Hcollector. cbn. rewrite Hmetrics. cbn. by rewrite <- app_assoc.
Qed.

(** X3. Without a parsed body ([req.body] undefined) the destructuring in the
    analyze and optimize handlers throws a [TypeError]: no 400 response is
    produced and the library is not called. *)
Theorem missing_body_type_error optimizer req res next w :
  body req = None →
  createAnalyzeHandler optimizer req res next w = (Thrown TypeError, w)
  ∧ createOptimizeHandler optimizer req res next w = (Thrown TypeError, w).
Proof.
  intros Hbody.
  unfold createAnalyzeHandler, createOptimizeHandler, mbind, M_bind, destructure.
  by rewrite Hbody.
Qed.

(** X4. What [analyzeWorkflow] or [optimizeWorkflow] throws leaves the handler as
    it is: the same exception, after the one call, with no response and
    nothing stored on the request. *)
Theorem analyze_optimize_propagate optimizer req fields next w e s :
  body req = Some fields →
  (Js.ToBoolean (Js.property fields "workflowId") = true →
   analyzeWorkflow_impl optimizer (Js.property fields "workflowId") (libState w)
   = (Thrown e, s) →
   createAnalyzeHandler optimizer req freshResponse next w
   = (Thrown e,
      mkWorld (optimizers w) s
              (calls w ++ [AnalyzeWorkflow optimizer (Js.property fields "workflowId")])))
  ∧ (Js.ToBoolean (Js.property fields "workflow") = true →
     optimizeWorkflow_impl optimizer (Js.property fields "workflow") (libState w)
     = (Thrown e, s) →
     createOptimizeHandler optimizer req freshResponse next w
     = (Thrown e,
        mkWorld (optimizers w) s
                (calls w ++ [OptimizeWorkflow optimizer (Js.property fields "workflow")]))).
Proof.
  intros Hbody. split; intros Htruthy Hcall.
  - unfold createAnalyzeHandler, mbind, M_bind, destructure. rewrite Hbody. cbn.
    rewrite Htruthy. cbn. unfold analyzeWorkflow, invoke. by rewrite Hcall.
  - unfold createOptimizeHandler, mbind, M_bind, destructure. rewrite Hbody. cbn.
    rewrite Htruthy. cbn. unfold optimizeWorkflow, invoke. by rewrite Hcall.
Qed.

(** X5. The metrics handler stops at the first collector call that throws:
    when [getTelemetryCollector] throws, [getAggregatedMetrics] is not
    called; when [getAggregatedMetrics] throws, that is what the handler
    throws. No response is sent either way. *)
Theorem metrics_propagates optimizer req next w e s1 :
  (getTelemetryCollector_impl optimizer (libState w) = (Thrown e, s1) →
   createMetricsHandler optimizer req freshResponse next w
   = (Thrown e, mkWorld (optimizers w) s1 (calls w ++ [GetTelemetryCollector optimizer])))
  ∧ (∀ collector s2,
       getTelemetryCollector_impl optimizer (libState w) = (Returned collector, s1) →
       getAggregatedMetrics_impl collector s1 = (Thrown e, s2) →
       createMetricsHandler optimizer req freshResponse next w
       = (Thrown e,
          mkWorld (optimizers w) s2
                  (calls w ++ [GetTelemetryCollector optimizer;
                               GetAggregatedMetrics collector]))).
Proof.
  split.
  - intros Hcollector.
    unfold createMetricsHandler, mbind, M_bind, getTelemetryCollector, invoke.
    by rewrite Hcollector.
  - intros collector s2 Hcollector Hmetrics.
    unfold createMetricsHandler, mbind, M_bind, getTelemetryCollector,
      getAggregatedMetrics, invoke.
    rewrite Hcollector. cbn. rewrite Hmetrics. cbn. by rewrite <- app_assoc.
Qed.

(** X7. With several records under the requested identifier, the critical-path
    handler analyses the first of them in the order of the collector's list
    and answers with its path. *)
Theorem critical_path_first_match
    optimizer req next w collector s1 (before after : list WorkflowExecution)
    execution s2 path s3 :
  Js.ToBoolean (Js.property (params req) "executionId") = true →
  getTelemetryCollector_impl optimizer (libState w) = (Returned collector, s1) →
  getWorkflowExecutions_impl collector s1
  = (Returned (before ++ execution :: after)%list, s2) →
  (∀ e, e ∈ before → Js.Str (id e) ≠ Js.property (params req) "executionId") →
  Js.Str (id execution) = Js.property (params req) "executionId" →
  analyzeExecutionCriticalPath_impl optimizer execution s2 = (Returned path, s3) →
  createCriticalPathHandler optimizer req freshResponse next w
  = (Returned (req, mkResponse 200 (Some (CriticalPathJson path))),
     mkWorld (optimizers w) s3
             (calls w ++ [GetTelemetryCollector optimizer;
                          GetWorkflowExecutions collector;
                          AnalyzeExecutionCriticalPath optimizer execution])).
Proof.
  intros Htruthy Hcollector Hexecutions Hbefore Hmatch Hpath.
  rewrite (critical_path_on_truthy _ _ _ _ collector s1 _ s2) by done.
  rewrite find_first; [by rewrite Hpath | | by apply strict_eq_Str].
  intros e He. destruct (Js.strict_eq _ _) eqn:Heq; [|done].
  apply strict_eq_Str in Heq. by destruct (Hbefore e He).
Qed.

(** X8. The critical-path handler answers 404 only when no record has the
    requested identifier: once the collector has handed over its list, the
    404 response and the absence of a match are equivalent. *)
Theorem critical_path_404_iff optimizer req next w collector s1 executions s2 :
  Js.ToBoolean (Js.property (params req) "executionId") = true →
  getTelemetryCollector_impl optimizer (libState w) = (Returned collector, s1) →
  getWorkflowExecutions_impl collector s1 = (Returned executions, s2) →
  (createCriticalPathHandler optimizer req freshResponse next w).1
  = Returned (req, mkResponse 404 (Some (ErrorJson "Execution not found")))
  ↔ ∀ e, e ∈ executions → Js.Str (id e) ≠ Js.property (params req) "executionId".
Proof.
  intros Htruthy Hcollector Hexecutions.
  rewrite (critical_path_on_truthy _ _ _ _ collector s1 executions s2) by done.
  split.
  - intros H404 e He Heq.
    destruct (Js.find _ executions) as [found|] eqn:Hfind.
    + destruct (analyzeExecutionCriticalPath_impl optimizer found s2) as [[path|e'] s3];
        cbn in H404; discriminate H404.
    + apply strict_eq_Str in Heq. by rewrite (find_none_inv _ _ Hfind e He) in Heq.
  - intros Hnone. rewrite find_none; [done|].
    intros e He. destruct (Js.strict_eq _ _) eqn:Heq; [|done].
    apply strict_eq_Str in Heq. by destruct (Hnone e He).
Qed.

End HandlerPaths.

(** ** Beyond the specification: what every route handler keeps *)

Section HandlerInvariants.

Context {L : OptimizerLibrary}.

(** The routes of a table are the four the object literal lists. *)
Lemma table_routes optimizer basePath (table : gmap string Route) w0 key route :
  setupOptimizerRoutes optimizer basePath w0 = (Returned table, w0) →
  table !! key = Some route →
  route = mkRoute "post" (createAnalyzeHandler optimizer)
  ∨ route = mkRoute "post" (createOptimizeHandler optimizer)
  ∨ route = mkRoute "get" (createMetricsHandler optimizer)
  ∨ route = mkRoute "get" (createCriticalPathHandler optimizer).
Proof.
  intros [= <-] Hkey.
  repeat (apply lookup_insert_Some in Hkey as [[_ <-] | [_ Hkey]]; [by auto|]).
  by rewrite lookup_empty in Hkey.
Qed.

(** Runs a handler through every branch: the body, the truthiness test,
    each library call returning or throwing, the search. *)
Ltac run_handler :=
  unfold createAnalyzeHandler, createOptimizeHandler, createMetricsHandler,
    createCriticalPathHandler, mbind, M_bind, mret, M_ret, destructure, throw,
    analyzeWorkflow, optimizeWorkflow, getTelemetryCollector, getAggregatedMetrics,
    getWorkflowExecutions, analyzeExecutionCriticalPath, invoke in *;
  cbn in *;
  repeat first [ progress simplify_eq/= | progress (unfold mret, M_ret in *) | case_match ].

(** X6. The critical-path handler stops at the first library call that throws
    and throws the same: a failing collector or a failing analysis is never
    answered with 404 or any other response. *)
Theorem critical_path_propagates optimizer req next w e :
  Js.ToBoolean (Js.property (params req) "executionId") = true →
  (∀ s1,
      getTelemetryCollector_impl optimizer (libState w) = (Thrown e, s1) →
      createCriticalPathHandler optimizer req freshResponse next w
      = (Thrown e, mkWorld (optimizers w) s1 (calls w ++ [GetTelemetryCollector optimizer])))
  ∧ (∀ collector s1 s2,
      getTelemetryCollector_impl optimizer (libState w) = (Returned collector, s1) →
      getWorkflowExecutions_impl collector s1 = (Thrown e, s2) →
      createCriticalPathHandler optimizer req freshResponse next w
      = (Thrown e,
         mkWorld (optimizers w) s2
                 (calls w ++ [GetTelemetryCollector optimizer;
                              GetWorkflowExecutions collector])))
  ∧ (∀ collector s1 (before after : list WorkflowExecution) execution s2 s3,
      getTelemetryCollector_impl optimizer (libState w) = (Returned collector, s1) →
      getWorkflowExecutions_impl collector s1
      = (Returned (before ++ execution :: after)%list, s2) →
      (∀ x, x ∈ before → Js.Str (id x) ≠ Js.property (params req) "executionId") →
      Js.Str (id execution) = Js.property (params req) "executionId" →
      analyzeExecutionCriticalPath_impl optimizer execution s2 = (Thrown e, s3) →
      createCriticalPathHandler optimizer req freshResponse next w
      = (Thrown e,
         mkWorld (optimizers w) s3
                 (calls w ++ [GetTelemetryCollector optimizer;
                              GetWorkflowExecutions collector;
                              AnalyzeExecutionCriticalPath optimizer execution]))).
Proof.
  intros Htruthy. split; [|split].
  - intros s1 Hcollector. unfold createCriticalPathHandler. rewrite Htruthy. cbn.
    unfold mbind, M_bind, getTelemetryCollector, invoke. by rewrite Hcollector.
  - intros collector s1 s2 Hcollector Hexecutions.
    unfold createCriticalPathHandler. rewrite Htruthy. cbn.
    unfold mbind, M_bind, getTelemetryCollector, getWorkflowExecutions, invoke.
    rewrite Hcollector. cbn. rewrite Hexecutions. cbn. by rewrite <- app_assoc.
  - intros collector s1 before after execution s2 s3
      Hcollector Hexecutions Hbefore Hmatch Hpath.
    rewrite (critical_path_on_truthy _ _ _ _ collector s1 _ s2) by done.
    rewrite find_first; [by rewrite Hpath | | by apply strict_eq_Str].
    intros x Hx. destruct (Js.strict_eq _ _) eqn:Heq; [|done].
    apply strict_eq_Str in Heq. by destruct (Hbefore x Hx).
Qed.

(** X9. Whatever the request and whatever the library does, a handler of the
    route table makes at most three library calls, never constructs an
    optimizer, and calls no optimizer but the one the table was built over:
    the optimizer a middleware attached to the request is never used. *)
Theorem handlers_call_own_optimizer
    optimizer basePath (table : gmap string Route) w0 key route req res next w :
  setupOptimizerRoutes optimizer basePath w0 = (Returned table, w0) →
  table !! key = Some route →
  ∃ new : list Call,
    calls (handler route req res next w).2 = (calls w ++ new)%list
    ∧ Forall (onOptimizer optimizer) new
    ∧ (length new ≤ 3)%nat
    ∧ optimizers (handler route req res next w).2 = optimizers w.
Proof.
  intros Htable Hkey.
  destruct (table_routes _ _ _ _ _ _ Htable Hkey) as [-> | [-> | [-> | ->]]];
    clear Htable Hkey; cbn [handler]; run_handler;
    first [ by exists []; rewrite app_nil_r; repeat split; [constructor | cbn; lia]
          | by eexists [_]; repeat split; [repeat constructor | cbn; lia]
          | by eexists [_; _]; rewrite <- ?app_assoc; repeat split;
              [repeat constructor | cbn; lia]
          | by eexists [_; _; _]; rewrite <- ?app_assoc; repeat split;
              [repeat constructor | cbn; lia] ].
Qed.

(** X10. A handler of the route table that returns has answered, in one of three
    shapes: a payload that is not an error under the status the response
    already had (the handlers never set a status on success, so 200 on a
    fresh response); [{error: message}] under status 400; or, from a GET
    route only, [{error: "Execution not found"}] under status 404. *)
Theorem handler_response_shape
    optimizer basePath (table : gmap string Route) w0 key route req res next w req' res' w' :
  setupOptimizerRoutes optimizer basePath w0 = (Returned table, w0) →
  table !! key = Some route →
  sent res = None →
  handler route req res next w = (Returned (req', res'), w') →
  (∃ payload, isError payload = false ∧ res' = mkResponse (statusCode res) (Some payload))
  ∨ (∃ message, res' = mkResponse 400 (Some (ErrorJson message)))
  ∨ (method route = "get"
     ∧ res' = mkResponse 404 (Some (ErrorJson "Execution not found"))).
Proof.
  intros Htable Hkey Hunsent Hrun.
  destruct (table_routes _ _ _ _ _ _ Htable Hkey) as [-> | [-> | [-> | ->]]];
    clear Htable Hkey; cbn [handler method] in *; run_handler;
    first [ by left; eexists; split; [|reflexivity]
          | by right; left; eexists
          | by right; right ].
Qed.

(** X11. A handler of the route table hands the request back as it got it, with
    one exception: the analyze route, on success, stores on it the analysis
    it sends. No handler writes [criticalPath] or [workflowOptimizer]. *)
Theorem handler_request_kept
    optimizer basePath (table : gmap string Route) w0 key route req res next w req' res' w' :
  setupOptimizerRoutes optimizer basePath w0 = (Returned table, w0) →
  table !! key = Some route →
  handler route req res next w = (Returned (req', res'), w') →
  req' = req
  ∨ (∃ analysis,
        route = mkRoute "post" (createAnalyzeHandler optimizer)
        ∧ req' = withAnalysis analysis req
        ∧ sent res' = Some (AnalysisJson analysis)).
Proof.
  intros Htable Hkey Hrun.
  destruct (table_routes _ _ _ _ _ _ Htable Hkey) as [-> | [-> | [-> | ->]]];
    clear Htable Hkey; cbn [handler] in *; run_handler;
    first [ by left
          | right; eexists; split; [reflexivity|]; split; [|reflexivity];
            unfold withAnalysis; congruence ].
Qed.


End HandlerInvariants.

(** ** Beyond the specification: the route table, the factory, the pipeline *)

Section AppPaths.

Context {L : OptimizerLibrary}.

(** [replace] takes out the leftmost occurrence and keeps what follows it,
    for a pattern whose first character does not come back in it. *)
Lemma replace_leftmost c t rep p r :
  (∀ n, String.get n t ≠ Some c) →
  Js.includes (String c t) p = false →
  Js.replace (String c t) rep (p +:+ String c t +:+ r) = p +:+ rep +:+ r.
Proof.
  intros Hfresh. induction p as [|b p IH]; intros Hclean.
  - rewrite !app_nil.
    pose proof (startsWith_app (String c t) r) as Hstart.
    pose proof (drop_app (String c t) r) as Hdrop.
    rewrite app_cons in *. cbn [Js.replace]. by rewrite Hstart, Hdrop.
  - cbn [Js.includes] in Hclean.
    destruct (Js.startsWith (String c t) (String b p)) eqn:Hhead; [done|].
    assert (Hstart : Js.startsWith (String c t) (String b p +:+ String c t +:+ r) = false).
    { destruct (Js.startsWith _ (_ +:+ _)) eqn:Hstart; [|done].
      rewrite (app_cons c t r) in Hstart.
      apply startsWith_overlap in Hstart as [Hstart | Hget]; [congruence|].
      cbn in Hget. by destruct (Hfresh _ Hget). }
    rewrite !(app_cons b) in *. cbn [Js.replace]. rewrite Hstart. by rewrite IH.
Qed.

Lemma stripped_of_override config :
  strippedAnalyzePath (default emptyConfig config)
  = Js.replace "/analyze" "" <$> analyzeOverride config.
Proof.
  unfold strippedAnalyzePath, analyzeOverride.
  destruct (paths (default emptyConfig config)) as [p|]; [|done]. cbn.
  by destruct (analyze p).
Qed.

(** X13. For every base path, also the empty string and the omitted one (which
    is ["/api/optimizer"]), the route table has exactly four entries: the
    base path followed by ["/analyze"], ["/optimize"], ["/metrics"] and
    ["/critical-path/:executionId"], with methods post, post, get, get and
    the handlers over the optimizer given. No key replaces another. *)
Theorem setup_routes_any_base optimizer basePath :
  let base := default "/api/optimizer" basePath in
  ∃ table,
    (∀ w, setupOptimizerRoutes optimizer basePath w = (Returned table, w))
    ∧ size table = 4
    ∧ table !! (base +:+ "/analyze")
      = Some (mkRoute "post" (createAnalyzeHandler optimizer))
    ∧ table !! (base +:+ "/optimize")
      = Some (mkRoute "post" (createOptimizeHandler optimizer))
    ∧ table !! (base +:+ "/metrics")
      = Some (mkRoute "get" (createMetricsHandler optimizer))
    ∧ table !! (base +:+ "/critical-path/:executionId")
      = Some (mkRoute "get" (createCriticalPathHandler optimizer))
    ∧ ∀ key, is_Some (table !! key) →
             key ∈ [base +:+ "/analyze"; base +:+ "/optimize"; base +:+ "/metrics";
                    base +:+ "/critical-path/:executionId"].
Proof.
  intros base.
  destruct (setup_routes_lookup optimizer base) as (table & Hrun & Hrest).
  exists table. split; [|exact Hrest].
  intros w. rewrite <- (Hrun w). by destruct basePath.
Qed.

(** X14. The route table of the bundle depends on the configuration through the
    analyze path alone: the [optimize], [metrics] and [criticalPath]
    overrides and the auto-optimize flag change nothing in it. *)
Theorem routes_depend_on_analyze_path c1 c2 w :
  analyzeOverride c1 = analyzeOverride c2 →
  ∃ app1 w1 app2 w2,
    createOptimizerApp c1 w = (Returned app1, w1)
    ∧ createOptimizerApp c2 w = (Returned app2, w2)
    ∧ optimizer app1 = optimizer app2
    ∧ routes app1 = routes app2.
Proof.
  intros Hsame.
  destruct (createOptimizerApp_run c1 w) as (app1 & Hrun1 & Hown1 & _ & Hroutes1).
  destruct (createOptimizerApp_run c2 w) as (app2 & Hrun2 & Hown2 & _ & Hroutes2).
  eexists app1, _, app2, _. split; [exact Hrun1|]. split; [exact Hrun2|].
  split; [congruence|].
  rewrite !stripped_of_override, Hsame, Hown1 in Hroutes1.
  rewrite !stripped_of_override, Hown2 in Hroutes2.
  injection Hroutes1 as <-. by injection Hroutes2 as <-.
Qed.

(** X15. A flag given in the configuration reaches every optimizer constructed
    from it: the one of a standalone middleware, and both optimizers of the
    app factory, which then agree. *)
Theorem explicit_flag_reaches_all config w (b : bool) :
  autoOptimize (default emptyConfig config) = Some b →
  (∃ mw w',
      createOptimizerMiddleware config w = (Returned mw, w')
      ∧ optimizers w' = (optimizers w ++ [{| optAutoOptimize := b |}])%list)
  ∧ (∃ app w',
      createOptimizerApp config w = (Returned app, w')
      ∧ optimizers w'
        = (optimizers w ++ [{| optAutoOptimize := b |}; {| optAutoOptimize := b |}])%list).
Proof.
  intros Hflag. split.
  - destruct (createOptimizerMiddleware_run config w) as (mw & Hrun & _).
    eexists mw, _. split; [exact Hrun|]. cbn. by rewrite Hflag.
  - destruct (createOptimizerApp_run config w) as (app & Hrun & _).
    eexists app, _. split; [exact Hrun|]. cbn. by rewrite Hflag.
Qed.

(** X16. The factory takes the leftmost ["/analyze"] out of the override, not
    the trailing one: for an override that reads [p], ["/analyze"], [r] with
    no ["/analyze"] in [p], the base path is [p] followed by [r], or the
    default when that is empty. *)
Theorem base_path_leftmost_occurrence config w (p r : string) :
  analyzeOverride config = Some (p +:+ "/analyze" +:+ r) →
  Js.includes "/analyze" p = false →
  ∃ app w',
    createOptimizerApp config w = (Returned app, w')
    ∧ setupOptimizerRoutes (optimizer app)
        (Some (if String.eqb (p +:+ r) "" then "/api/optimizer" else p +:+ r)) w'
      = (Returned (routes app), w').
Proof.
  intros Hoverride Hclean.
  destruct (createOptimizerApp_run config w) as (app & Hrun & _ & _ & Hroutes).
  eexists app, _. split; [exact Hrun|].
  rewrite stripped_of_override, Hoverride in Hroutes. cbn [fmap option_fmap option_map] in Hroutes.
  rewrite replace_leftmost in Hroutes; [exact Hroutes | | exact Hclean].
  intros n. do 8 (destruct n as [|n]; [discriminate|]). discriminate.
Qed.

(** X17. The bundle wired as a pipeline, its middleware in front of its analyze
    route: the analysis that ends up on the request and in the response is
    computed by the bundle's own optimizer, while the optimizer the
    middleware has attached to that request is the other one, which is not
    called. *)
Theorem bundle_analyze_pipeline config w req fields workflowId next a s :
  body req = Some fields →
  fields !! "workflowId" = Some workflowId →
  Js.ToBoolean workflowId = true →
  analyzeWorkflow_impl (length (optimizers w)) workflowId (libState w) = (Returned a, s) →
  ∃ app w' key route,
    createOptimizerApp config w = (Returned app, w')
    ∧ routes app !! key = Some route
    ∧ middleware app req freshResponse (λ r s, handler route r s next) w'
      = (Returned (withAnalysis a (withOptimizer (S (length (optimizers w))) req),
                   mkResponse 200 (Some (AnalysisJson a))),
         mkWorld (optimizers w') s
                 (calls w' ++ [AnalyzeWorkflow (length (optimizers w)) workflowId])).
Proof.
  intros Hbody Hpresent Htruthy Hcall.
  destruct (createOptimizerApp_run config w)
    as (app & Hrun & Hown & Hattached & Hroutes).
  destruct (setup_routes_lookup (optimizer app)
              (Js.or_else (strippedAnalyzePath (default emptyConfig config))
                          "/api/optimizer"))
    as (table & Htable & _ & Hanalyze & _).
  rewrite Htable in Hroutes. injection Hroutes as Hsame.
  eexists app, _, _, _. split; [exact Hrun|].
  split; [rewrite <- Hsame; exact Hanalyze|].
  rewrite Hattached. cbn [handler]. rewrite Hown.
  rewrite (analyze_on_truthy _ _ fields _ _ a s); try done.
  - by rewrite (property_present _ _ _ Hpresent).
  - cbn. by rewrite (property_present _ _ _ Hpresent).
  - cbn. by rewrite (property_present _ _ _ Hpresent).
Qed.

(** X18. Two middlewares created one after the other hold different optimizers,
    and chained on one request the later one prevails: the request reaches
    the end of the chain with the second optimizer attached. *)
Theorem middleware_chain c1 c2 w :
  ∃ mw1 w1 mw2 w2,
    createOptimizerMiddleware c1 w = (Returned mw1, w1)
    ∧ createOptimizerMiddleware c2 w1 = (Returned mw2, w2)
    ∧ attaches mw1 (length (optimizers w))
    ∧ attaches mw2 (S (length (optimizers w)))
    ∧ ∀ req res next w0,
        mw1 req res (λ r s, mw2 r s next) w0
        = next (withOptimizer (S (length (optimizers w))) req) res w0.
Proof.
  destruct (createOptimizerMiddleware_run c1 w) as (mw1 & Hrun1 & Hattached1).
  eexists mw1, _. 
  match type of Hrun1 with _ = (_, ?w1) =>
    destruct (createOptimizerMiddleware_run c2 w1) as (mw2 & Hrun2 & Hattached2)
  end.
  eexists mw2, _. split; [exact Hrun1|]. split; [exact Hrun2|].
  cbn [optimizers] in Hattached2. rewrite length_app, Nat.add_1_r in Hattached2.
  split; [exact Hattached1|]. split; [exact Hattached2|].
  intros req res next w0. by rewrite Hattached1, Hattached2.
Qed.

End AppPaths.

(** ** The other paths on concrete requests *)

Lemma optimize_truthy_workflow_witness :
  createOptimizeHandler (L := Demo.library) 0
    (Demo.request (Some {["workflow" := Js.Obj 7]}) ∅) freshResponse Demo.next Demo.world
  = (Returned (Demo.request (Some {["workflow" := Js.Obj 7]}) ∅,
               mkResponse 200 (Some (OptimizationJson (L := Demo.library) (Js.Obj 7)))),
     mkWorld (L := Demo.library) [] (libState Demo.world) [OptimizeWorkflow 0 (Js.Obj 7)]).
Proof.
  apply (optimize_truthy_workflow (L := Demo.library) 0
           (Demo.request (Some {["workflow" := Js.Obj 7]}) ∅)
           {["workflow" := Js.Obj 7]} (Js.Obj 7) Demo.next Demo.world);
    reflexivity.
Defined.

Lemma metrics_any_request_witness :
  createMetricsHandler (L := Demo.library) 0
    (Demo.request None {["executionId" := Js.Num 3]}) freshResponse Demo.next Demo.world
  = (Returned (Demo.request None {["executionId" := Js.Num 3]},
               mkResponse 200 (Some (MetricsJson (L := Demo.library) 2))),
     mkWorld (L := Demo.library) [] (libState Demo.world)
             [GetTelemetryCollector 0; GetAggregatedMetrics (L := Demo.library) 0]).
Proof.
  apply (metrics_any_request (L := Demo.library) 0
           (Demo.request None {["executionId" := Js.Num 3]}) Demo.next Demo.world
           0 (libState Demo.world) 2 (libState Demo.world));
    reflexivity.
Defined.

Lemma missing_body_type_error_witness :
  createAnalyzeHandler (L := Demo.library) 0 (Demo.request None ∅) freshResponse
    Demo.next Demo.world
  = (Thrown TypeError, Demo.world)
  ∧ createOptimizeHandler (L := Demo.library) 0 (Demo.request None ∅) freshResponse
      Demo.next Demo.world
    = (Thrown TypeError, Demo.world).
Proof.
  apply (missing_body_type_error (L := Demo.library) 0 (Demo.request None ∅)). reflexivity.
Defined.

(** A number for the identifier and a string for the workflow are truthy,
    and the strict library throws on both. *)
Lemma analyze_optimize_propagate_witness :
  createAnalyzeHandler (L := Strict.library) 0
    (Strict.request (Some {["workflowId" := Js.Num 7]}) ∅) freshResponse
    Strict.next Strict.world
  = (Thrown (LibraryError "workflowId must be a string"),
     mkWorld (L := Strict.library) [] (libState Strict.world)
             [AnalyzeWorkflow 0 (Js.Num 7)]).
Proof.
  destruct (analyze_optimize_propagate (L := Strict.library) 0
              (Strict.request (Some {["workflowId" := Js.Num 7]}) ∅)
              {["workflowId" := Js.Num 7]} Strict.next Strict.world
              (LibraryError "workflowId must be a string") (libState Strict.world) eq_refl)
    as [Hanalyze _].
  apply Hanalyze; reflexivity.
Defined.

(** Optimizer 1 has no collector; optimizer 0 has one with nothing recorded. *)
Lemma metrics_propagates_witness :
  createMetricsHandler (L := Strict.library) 1 (Strict.request None ∅) freshResponse
    Strict.next Strict.world
  = (Thrown (LibraryError "optimizer has no collector"),
     mkWorld (L := Strict.library) [] (libState Strict.world) [GetTelemetryCollector 1]).
Proof.
  destruct (metrics_propagates (L := Strict.library) 1 (Strict.request None ∅)
              Strict.next Strict.world (LibraryError "optimizer has no collector")
              (libState Strict.world))
    as [Hcollector _].
  apply Hcollector. reflexivity.
Defined.

(** The second and the fourth execution are both ["run"]: the second is
    analysed. *)
Lemma critical_path_first_match_witness :
  createCriticalPathHandler (L := Strict.library) 0
    (Strict.request None {["executionId" := Js.Str "run"]}) freshResponse
    Strict.next Strict.world
  = (Returned (Strict.request None {["executionId" := Js.Str "run"]},
               mkResponse 200 (Some (CriticalPathJson (L := Strict.library)
                                       ["fetch"; "rank"]))),
     mkWorld (L := Strict.library) [] (libState Strict.world)
             [GetTelemetryCollector 0; GetWorkflowExecutions (L := Strict.library) 0;
              AnalyzeExecutionCriticalPath (L := Strict.library) 0
                ("run", ["fetch"; "rank"])]).
Proof.
  apply (critical_path_first_match (L := Strict.library) 0
           (Strict.request None {["executionId" := Js.Str "run"]})
           Strict.next Strict.world 0 (libState Strict.world)
           [("boot", ["load"])] [("idle", []); ("run", ["retry"])]
           ("run", ["fetch"; "rank"]) (libState Strict.world));
    try reflexivity.
  intros e He. apply list_elem_of_singleton in He as ->. discriminate.
Defined.

Lemma critical_path_404_iff_witness :
  (createCriticalPathHandler (L := Strict.library) 0
     (Strict.request None {["executionId" := Js.Str "halt"]}) freshResponse
     Strict.next Strict.world).1
  = Returned (Strict.request None {["executionId" := Js.Str "halt"]},
              mkResponse 404 (Some (ErrorJson "Execution not found"))).
Proof.
  apply (critical_path_404_iff (L := Strict.library) 0
           (Strict.request None {["executionId" := Js.Str "halt"]})
           Strict.next Strict.world 0 (libState Strict.world) (libState Strict.world)
           (libState Strict.world));
    try reflexivity.
  intros e He. cbn in He. rewrite !elem_of_cons, elem_of_nil in He.
  destruct He as [-> | [-> | [-> | [-> | []]]]]; discriminate.
Defined.

(** ["idle"] is found and has no steps: the analysis throws, and so does
    the handler. *)
Lemma critical_path_propagates_witness :
  createCriticalPathHandler (L := Strict.library) 0
    (Strict.request None {["executionId" := Js.Str "idle"]}) freshResponse
    Strict.next Strict.world
  = (Thrown (LibraryError "execution has no steps"),
     mkWorld (L := Strict.library) [] (libState Strict.world)
             [GetTelemetryCollector 0; GetWorkflowExecutions (L := Strict.library) 0;
              AnalyzeExecutionCriticalPath (L := Strict.library) 0 ("idle", [])]).
Proof.
  destruct (critical_path_propagates (L := Strict.library) 0
              (Strict.request None {["executionId" := Js.Str "idle"]})
              Strict.next Strict.world (LibraryError "execution has no steps"))
    as (_ & _ & Hpath); [reflexivity|].
  apply (Hpath 0 (libState Strict.world)
           [("boot", ["load"]); ("run", ["fetch"; "rank"])] [("run", ["retry"])]
           ("idle", []) (libState Strict.world) (libState Strict.world));
    try reflexivity.
  intros x Hx. rewrite !elem_of_cons, elem_of_nil in Hx.
  destruct Hx as [-> | [-> | []]]; discriminate.
Defined.

(** The critical-path route of the default table, asked for ["exec-1"] on
    a request that carries optimizer 5: its three calls are on optimizer 0. *)
Lemma handlers_call_own_optimizer_witness :
  ∃ new : list (Call (L := Demo.library)),
    calls (createCriticalPathHandler 0
             (withOptimizer 5 (Demo.request None {["executionId" := Js.Str "exec-1"]}))
             freshResponse Demo.next Demo.world).2
    = (calls Demo.world ++ new)%list
    ∧ Forall (onOptimizer 0) new
    ∧ (length new ≤ 3)%nat
    ∧ optimizers (createCriticalPathHandler 0
                    (withOptimizer 5
                       (Demo.request None {["executionId" := Js.Str "exec-1"]}))
                    freshResponse Demo.next Demo.world).2
      = optimizers Demo.world.
Proof.
  destruct (setup_routes_lookup (L := Demo.library) 0 "/api/optimizer")
    as (table & Hrun & _ & _ & _ & _ & Hcritical & _).
  exact (handlers_call_own_optimizer (L := Demo.library) 0 None table Demo.world
           _ _ (withOptimizer 5 (Demo.request None {["executionId" := Js.Str "exec-1"]}))
           freshResponse Demo.next Demo.world (Hrun Demo.world) Hcritical).
Defined.

(** The same route asked for an identifier nothing is recorded under. *)
Lemma handler_response_shape_witness :
  (∃ payload : Json (L := Demo.library),
      isError payload = false ∧ mkResponse 404 (Some (ErrorJson "Execution not found"))
                                = mkResponse 200 (Some payload))
  ∨ (∃ message,
        mkResponse (L := Demo.library) 404 (Some (ErrorJson "Execution not found"))
        = mkResponse 400 (Some (ErrorJson message)))
  ∨ ("get" = "get"
     ∧ mkResponse (L := Demo.library) 404 (Some (ErrorJson "Execution not found"))
       = mkResponse 404 (Some (ErrorJson "Execution not found"))).
Proof.
  destruct (setup_routes_lookup (L := Demo.library) 0 "/api/optimizer")
    as (table & Hrun & _ & _ & _ & _ & Hcritical & _).
  exact (handler_response_shape (L := Demo.library) 0 None table Demo.world
           _ _ (Demo.request None {["executionId" := Js.Str "exec-9"]})
           freshResponse Demo.next Demo.world _ _ _
           (Hrun Demo.world) Hcritical eq_refl eq_refl).
Defined.

(** The analyze route on ["wf-1"]: the request comes back with the analysis. *)
Lemma handler_request_kept_witness :
  mkRequest (L := Demo.library) (Some {["workflowId" := Js.Str "wf-1"]}) ∅ None
            (Some (Js.Str "wf-1", 2)) None
  = Demo.request (Some {["workflowId" := Js.Str "wf-1"]}) ∅
  ∨ (∃ analysis,
        mkRoute (L := Demo.library) "post" (createAnalyzeHandler 0)
        = mkRoute "post" (createAnalyzeHandler 0)
        ∧ mkRequest (L := Demo.library) (Some {["workflowId" := Js.Str "wf-1"]}) ∅ None
                    (Some (Js.Str "wf-1", 2)) None
          = withAnalysis analysis (Demo.request (Some {["workflowId" := Js.Str "wf-1"]}) ∅)
        ∧ sent (mkResponse (L := Demo.library) 200
                  (Some (AnalysisJson (L := Demo.library) (Js.Str "wf-1", 2))))
          = Some (AnalysisJson analysis)).
Proof.
  destruct (setup_routes_lookup (L := Demo.library) 0 "/api/optimizer")
    as (table & Hrun & _ & Hanalyze & _).
  exact (handler_request_kept (L := Demo.library) 0 None table Demo.world
           _ _ (Demo.request (Some {["workflowId" := Js.Str "wf-1"]}) ∅)
           freshResponse Demo.next Demo.world _ _ _
           (Hrun Demo.world) Hanalyze eq_refl).
Defined.


(** The table for the omitted base path. *)
Lemma setup_routes_any_base_witness :
  ∃ table : gmap string (Route (L := Demo.library)),
    setupOptimizerRoutes 0 None Demo.world = (Returned table, Demo.world)
    ∧ size table = 4
    ∧ table !! "/api/optimizer/metrics" = Some (mkRoute "get" (createMetricsHandler 0)).
Proof.
  destruct (setup_routes_any_base (L := Demo.library) 0 None)
    as (table & Hrun & Hsize & _ & _ & Hmetrics & _).
  exists table. split; [apply Hrun | by split].
Defined.

(** One analyze path, with and without the other overrides and the flag. *)
Lemma routes_depend_on_analyze_path_witness :
  ∃ app1 w1 app2 w2,
    createOptimizerApp (L := Demo.library) (Demo.withAnalyzePath "/v1/analyze") Demo.world
    = (Returned app1, w1)
    ∧ createOptimizerApp (L := Demo.library)
        (Some (mkConfig (Some false)
                 (Some (mkPaths (Some "/v1/analyze") (Some "/v1/tune")
                                (Some "/stats") (Some "/v1/path/:id")))))
        Demo.world
      = (Returned app2, w2)
    ∧ optimizer app1 = optimizer app2
    ∧ routes app1 = routes app2.
Proof.
  apply (routes_depend_on_analyze_path (L := Demo.library)). reflexivity.
Defined.

Lemma explicit_flag_reaches_all_witness :
  (∃ mw w',
      createOptimizerMiddleware (L := Demo.library)
        (Some (mkConfig (Some true) None)) Demo.world
      = (Returned mw, w')
      ∧ optimizers w' = [{| optAutoOptimize := true |}])
  ∧ (∃ app w',
      createOptimizerApp (L := Demo.library) (Some (mkConfig (Some true) None)) Demo.world
      = (Returned app, w')
      ∧ optimizers w' = [{| optAutoOptimize := true |}; {| optAutoOptimize := true |}]).
Proof.
  apply (explicit_flag_reaches_all (L := Demo.library)
           (Some (mkConfig (Some true) None)) Demo.world true).
  reflexivity.
Defined.

(** ["/api/analyze/v2/analyze"]: the first ["/analyze"] goes, the trailing
    one stays. *)
Lemma base_path_leftmost_occurrence_witness :
  ∃ app w',
    createOptimizerApp (L := Demo.library)
      (Demo.withAnalyzePath "/api/analyze/v2/analyze") Demo.world
    = (Returned app, w')
    ∧ setupOptimizerRoutes (optimizer app) (Some "/api/v2/analyze") w'
      = (Returned (routes app), w').
Proof.
  apply (base_path_leftmost_occurrence (L := Demo.library)
           (Demo.withAnalyzePath "/api/analyze/v2/analyze") Demo.world
           "/api" "/v2/analyze");
    reflexivity.
Defined.

(** The bundle made without configuration, on a request for ["wf-1"]:
    optimizer 1 is attached, optimizer 0 is called. *)
Lemma bundle_analyze_pipeline_witness :
  ∃ app w' (key : string) route,
    createOptimizerApp (L := Demo.library) None Demo.world = (Returned app, w')
    ∧ routes app !! key = Some route
    ∧ middleware app (Demo.request (Some {["workflowId" := Js.Str "wf-1"]}) ∅)
        freshResponse (λ r s, handler route r s Demo.next) w'
      = (Returned (mkRequest (L := Demo.library)
                             (Some {["workflowId" := Js.Str "wf-1"]}) ∅ (Some 1)
                             (Some (Js.Str "wf-1", 2)) None,
                   mkResponse 200 (Some (AnalysisJson (L := Demo.library)
                                           (Js.Str "wf-1", 2)))),
         mkWorld (optimizers w') (libState Demo.world)
                 (calls w' ++ [AnalyzeWorkflow 0 (Js.Str "wf-1")])).
Proof.
  apply (bundle_analyze_pipeline (L := Demo.library) None Demo.world
           (Demo.request (Some {["workflowId" := Js.Str "wf-1"]}) ∅)
           {["workflowId" := Js.Str "wf-1"]} (Js.Str "wf-1") Demo.next
           (Js.Str "wf-1", 2) (libState Demo.world));
    reflexivity.
Defined.

Lemma middleware_chain_witness :
  ∃ mw1 w1 mw2 w2,
    createOptimizerMiddleware (L := Demo.library) None Demo.world = (Returned mw1, w1)
    ∧ createOptimizerMiddleware None w1 = (Returned mw2, w2)
    ∧ attaches mw1 0
    ∧ attaches mw2 1.
Proof.
  destruct (middleware_chain (L := Demo.library) None None Demo.world)
    as (mw1 & w1 & mw2 & w2 & Hrun1 & Hrun2 & Hattached1 & Hattached2 & _).
  by exists mw1, w1, mw2, w2.
Defined.
